(** * house-simulator: heater controller, weather service, telemetry simulator

    A shallow embedding of the three Python services of the repository
    (heater-service/server.py, weather-service/main.py,
    temperature-simulator/telemetry.py) and the proofs of their contracts.

    Conventions of the embedding.
    - A Python [int] is a [Z]; a Python [float] is an exact rational [Q]
      (the contracts are stated over exact arithmetic, so [1.2] is [6/5]);
      values of [Q] are compared with [==].
    - [round(x, n)] is round-half-to-even on [x * 10^n].
    - [random.random()] reads the next element of a stream of rationals in
      [0, 1); [random.uniform(a, b)] is [a + (b - a) * random()], as in
      CPython's [random] module.
    - A function that can raise returns a [result]; a function that reads or
      writes module-level or external state passes that state explicitly. *)

From Stdlib Require Import ZArith QArith Qround List String Bool Lia Lqa.
Import ListNotations.

Open Scope string_scope.
Open Scope Z_scope.

(* ------------------------------------------------------------------------- *)
(** ** Python values, exceptions and results *)

Module Py.

(** The runtime values a tool argument can carry. *)
Inductive value : Type :=
| PyNone
| PyBool (b : bool)
| PyInt (z : Z)
| PyFloat (q : Q)
| PyStr (s : string).

(** [isinstance(v, int)] together with the integer the value denotes:
    [bool] is a subclass of [int] ([True] is 1, [False] is 0). *)
Definition as_int (v : value) : option Z :=
  match v with
  | PyInt z => Some z
  | PyBool true => Some 1
  | PyBool false => Some 0
  | _ => None
  end.

Definition isinstance_int (v : value) : bool :=
  match as_int v with Some _ => true | None => false end.

(** The number a value denotes in an arithmetic expression with a float. *)
Definition as_number (v : value) : option Q :=
  match v with
  | PyInt z => Some (inject_Z z)
  | PyBool true => Some 1%Q
  | PyBool false => Some 0%Q
  | PyFloat q => Some q
  | _ => None
  end.

(** The exceptions (all subclasses of [Exception]) the services raise or
    receive from the libraries they call. *)
Inductive exc : Type :=
| ValueError (msg : string)
| TypeError (msg : string)
| KeyError (key : string)
| HTTPException (status_code : Z) (detail : string)
| ClientError (msg : string).

Inductive result (A : Type) : Type :=
| Ret (a : A)
| Raise (e : exc).

Arguments Ret {A} a.
Arguments Raise {A} e.

Definition is_ret {A} (r : result A) : bool :=
  match r with Ret _ => true | Raise _ => false end.

(** Truthiness of a string: [if s:] holds for the non-empty strings. *)
Definition truthy_str (s : string) : bool :=
  match s with EmptyString => false | String _ _ => true end.

(** [range(a, b)] *)
Definition range (a b : Z) : list Z :=
  map (fun i => a + Z.of_nat i) (seq 0 (Z.to_nat (b - a))).

End Py.

(* ------------------------------------------------------------------------- *)
(** ** Floats: rounding, [max] and [sum] over exact rationals *)

Module PyFloat.

Definition Qltb (x y : Q) : bool := negb (Qle_bool y x).

(** Nearest integer, ties to the even neighbour. *)
Definition round_half_even (x : Q) : Z :=
  let f := Qfloor x in
  match (x - inject_Z f ?= 1 # 2)%Q with
  | Lt => f
  | Gt => f + 1
  | Eq => if Z.even f then f else f + 1
  end.

(** [10 ** ndigits] *)
Definition scale (ndigits : nat) : positive := Z.to_pos (10 ^ Z.of_nat ndigits).

(** [round(x, ndigits)] for [ndigits >= 0]. *)
Definition round (x : Q) (ndigits : nat) : Q :=
  Qmake (round_half_even (x * inject_Z (Zpos (scale ndigits)))) (scale ndigits).

(** [max(a, b)]: the first argument unless the second is strictly greater. *)
Definition max (a b : Q) : Q := if Qltb a b then b else a.

(** [sum(xs)]: left to right from the integer 0. *)
Definition sum (xs : list Q) : Q := fold_left Qplus xs 0%Q.

(** A number with at most [n] decimals. *)
Definition decimal (n : nat) (q : Q) : Prop := exists z : Z, (q == z # scale n)%Q.

End PyFloat.

(* ------------------------------------------------------------------------- *)
(** ** The [random] module *)

Module PyRandom.

(** The generator: the stream of values [random.random()] will return and
    how many of them have been consumed. *)
Record rng : Type := { stream : nat -> Q; consumed : nat }.

Definition random (g : rng) : Q * rng :=
  (stream g (consumed g), {| stream := stream g; consumed := S (consumed g) |}).

Definition uniform (a b : Q) (g : rng) : Q * rng :=
  let (r, g') := random g in ((a + (b - a) * r)%Q, g').

(** Every draw of [random.random()] lies in [0, 1). *)
Definition well_formed (g : rng) : Prop :=
  forall n, (0 <= stream g n /\ stream g n < 1)%Q.

(** The draw with index [i] counted from the generator's current position. *)
Definition draw (g : rng) (i : nat) : Q := stream g (consumed g + i).

Definition advance (g : rng) (k : nat) : rng :=
  {| stream := stream g; consumed := consumed g + k |}.

(** A generator whose every draw is [q], for running the code on. *)
Definition constant (q : Q) : rng := {| stream := fun _ => q; consumed := 0 |}.

End PyRandom.

(* ------------------------------------------------------------------------- *)
(** ** heater-service/server.py *)

Module Heater.
Import Py.

(** [heater_state = {"setpoint": 20}]: the dict has the one key, and the
    value stored under it is whatever object [modify_setpoint] assigned;
    the generator of the [random] module is the other piece of
    process-wide state the tools touch. *)
Record state : Type := { setpoint : value; gen : PyRandom.rng }.

Definition initial (g : PyRandom.rng) : state :=
  {| setpoint := PyInt 20; gen := g |}.

Record setpoint_reply : Type :=
  { sr_setpoint : value; sr_unit : string }.

Record modify_reply : Type :=
  { previous_setpoint : value;
    new_setpoint : value;
    status : string;
    unit : string }.

Record day_entry : Type := { day : Z; kwh : Q }.

Record consumption_reply : Type :=
  { days : value;
    daily_consumption : list day_entry;
    total_kwh : Q;
    average_kwh_per_day : Q }.

Definition get_setpoint (st : state) : result setpoint_reply * state :=
  (Ret {| sr_setpoint := setpoint st; sr_unit := "celsius" |}, st).

Definition modify_setpoint (temperature : value) (st : state)
  : result modify_reply * state :=
  match as_int temperature with
  | None => (Raise (ValueError "Temperature must be an integer"), st)
  | Some t =>
      if negb ((8 <=? t) && (t <=? 25)) then
        (Raise (ValueError "Temperature must be between 8 and 25°C"), st)
      else
        let old_setpoint := setpoint st in
        (Ret {| previous_setpoint := old_setpoint;
                new_setpoint := temperature;
                status := "updated";
                unit := "celsius" |},
         {| setpoint := temperature; gen := gen st |})
  end.

(** One pass of the body of [for day in range(1, days + 1)], for a
    setpoint that denotes the number [sp]. *)
Definition consumption_step (sp : Q) (acc : list day_entry * PyRandom.rng)
  (d : Z) : list day_entry * PyRandom.rng :=
  let (daily, g) := acc in
  let base_kwh := (sp * (12 # 10))%Q in
  let (u, g') := PyRandom.uniform (-5) 5 g in
  let k := PyFloat.round (base_kwh + u) 2 in
  let k := PyFloat.max 0 k in
  ((daily ++ [{| day := d; kwh := k |}])%list, g').

(** The entry the loop appends for the day [d] when [random.random()]
    yields [r]. *)
Definition entry (sp : Q) (d : Z) (r : Q) : day_entry :=
  {| day := d;
     kwh := PyFloat.max 0 (PyFloat.round (sp * (12 # 10) + (-5 + (5 - -5) * r)) 2) |}.

Definition get_consumption (days_arg : value) (st : state)
  : result consumption_reply * state :=
  match as_int days_arg with
  | None => (Raise (ValueError "Days must be an integer"), st)
  | Some n =>
      if (n <? 1) || (n >? 365) then
        (Raise (ValueError "Days must be between 1 and 365"), st)
      else
        match as_number (setpoint st) with
        | None =>
            (Raise (TypeError "unsupported operand type(s) for *"), st)
        | Some sp =>
            let (daily, g') :=
              fold_left (consumption_step sp) (range 1 (n + 1)) ([], gen st) in
            let total := PyFloat.sum (map kwh daily) in
            (Ret {| days := days_arg;
                    daily_consumption := daily;
                    total_kwh := PyFloat.round total 2;
                    average_kwh_per_day :=
                      PyFloat.round (total / inject_Z n) 2 |},
             {| setpoint := setpoint st; gen := g' |})
        end
  end.

(** The tool calls a client can make, and the service as a machine that
    handles them one after the other. *)
Inductive call : Type :=
| GetSetpoint
| ModifySetpoint (temperature : value)
| GetConsumption (days_arg : value).

Definition handle (c : call) (st : state) : state :=
  match c with
  | GetSetpoint => snd (get_setpoint st)
  | ModifySetpoint t => snd (modify_setpoint t st)
  | GetConsumption d => snd (get_consumption d st)
  end.

Definition run (cs : list call) (st : state) : state :=
  fold_left (fun s c => handle c s) cs st.

Definition is_modify (c : call) : bool :=
  match c with ModifySetpoint _ => true | _ => false end.

(** The stored setpoint is an [int] object (not a [bool]) within 8..25. *)
Definition setpoint_ok (st : state) : bool :=
  match setpoint st with
  | PyInt z => (8 <=? z) && (z <=? 25)
  | _ => false
  end.

(** Whether [modify_setpoint] lets a value through its two checks. *)
Definition accepts (v : value) : bool :=
  match as_int v with
  | Some t => (8 <=? t) && (t <=? 25)
  | None => false
  end.

(** The value a session leaves stored: the argument of its last accepted
    [modify_setpoint], or what was stored before it when there is none. *)
Fixpoint last_accepted (cs : list call) (current : value) : value :=
  match cs with
  | [] => current
  | ModifySetpoint v :: rest => last_accepted rest (if accepts v then v else current)
  | _ :: rest => last_accepted rest current
  end.

(** The number of days a call of [get_consumption] computes entries for:
    none when its argument is rejected. *)
Definition days_served (c : call) : nat :=
  match c with
  | GetConsumption v =>
      match as_int v with
      | Some n => if (n <? 1) || (n >? 365) then O else Z.to_nat n
      | None => O
      end
  | _ => O
  end.

Definition draws_used (cs : list call) : nat :=
  fold_right (fun c k => (days_served c + k)%nat) O cs.

End Heater.

(* ------------------------------------------------------------------------- *)
(** ** weather-service/main.py *)

Module Weather.
Import Py.

(** [os.getenv(name, default)] over the process environment. *)
Fixpoint getenv (env : list (string * string)) (name default : string) : string :=
  match env with
  | [] => default
  | (k, v) :: rest => if String.eqb k name then v else getenv rest name default
  end.

Definition EXPECTED_API_KEY (env : list (string * string)) : string :=
  getenv env "API_KEY" "".

Record WeatherRequest : Type := { req_location : string }.

Record WeatherResponse : Type :=
  { location : string; temperature : Q; description : string }.

(** The dependency of the [/weather] route.  [Header(...)] makes the
    [X-API-Key] header required, so the function runs on the header a
    request supplied. *)
Definition verify_api_key (expected x_api_key : string) : result string :=
  if negb (truthy_str expected) then
    Raise (HTTPException 500 "API key not configured")
  else if negb (String.eqb x_api_key expected) then
    Raise (HTTPException 401 "Invalid API key")
  else Ret x_api_key.

Definition get_weather (request : WeatherRequest) (api_key : string)
  (g : PyRandom.rng) : WeatherResponse * PyRandom.rng :=
  let (u, g') := PyRandom.uniform (-10) (-4) g in
  let t := PyFloat.round u 1 in
  ({| location := req_location request;
      temperature := t;
      description := "Sunny and clear skies" |}, g').

Inductive http_response : Type :=
| Response (status_code : Z) (body : WeatherResponse)
| ErrorResponse (status_code : Z) (detail : string).

Definition status_of (r : http_response) : Z :=
  match r with Response c _ => c | ErrorResponse c _ => c end.

(** [POST /weather]: the route resolves [Depends(verify_api_key)] first; an
    [HTTPException] becomes the response with its status code, and a
    returned model is sent with the route's default status, 200. *)
Definition post_weather (env : list (string * string)) (x_api_key : string)
  (request : WeatherRequest) (g : PyRandom.rng) : http_response * PyRandom.rng :=
  match verify_api_key (EXPECTED_API_KEY env) x_api_key with
  | Raise (HTTPException code detail) => (ErrorResponse code detail, g)
  | Raise _ => (ErrorResponse 500 "Internal Server Error", g)
  | Ret api_key =>
      let (body, g') := get_weather request api_key g in
      (Response 200 body, g')
  end.

End Weather.

(* ------------------------------------------------------------------------- *)
(** ** temperature-simulator/telemetry.py *)

Module Telemetry.
Import Py.

Record room_config : Type := { temp_base : Q; humidity_base : Z }.

(** The dict keeps its insertion order. *)
Definition ROOMS : list (string * room_config) :=
  [ ("kitchen", {| temp_base := 22; humidity_base := 50 |});
    ("livingroom", {| temp_base := 215 # 10; humidity_base := 48 |});
    ("bedroom", {| temp_base := 20; humidity_base := 52 |}) ].

Record reading : Type :=
  { room : string; temperature : Q; humidity : Q; time_recorded : string }.

(** The wall clock: what [datetime.now(timezone.utc).isoformat()] returns
    at each of its calls. *)
Record clock : Type := { instants : nat -> string; reads : nat }.

(** What the process does to the outside, in order. *)
Inductive line : Type :=
| Banner (text : string)
| ErrorSending (e : exc)
| Sent (time room_name : string) (temperature humidity : Q) (record_id : string)
| FailedToSend (time room_name : string).

Inductive event : Type :=
| Print (l : line)
| PutRecord (delivery_stream : string) (data : reading)
| Sleep (seconds : Z).

(** The world the simulator runs in.  [firehose k s r] is what the [k]-th
    call of [firehose.put_record] does when it is handed record [r] for
    stream [s]: it raises, or it returns a response dict. *)
Record world : Type :=
  { gen : PyRandom.rng;
    now : clock;
    firehose : nat -> string -> reading -> result (list (string * string));
    calls : nat;
    trace : list event }.

(** Computations over the world that may raise. *)
Definition M (A : Type) : Type := world -> result A * world.

Definition ret {A} (a : A) : M A := fun w => (Ret a, w).

Definition bind {A B} (m : M A) (k : A -> M B) : M B :=
  fun w =>
    match m w with
    | (Ret a, w') => k a w'
    | (Raise e, w') => (Raise e, w')
    end.

(** [try: body  except Exception as e: handler e] *)
Definition try_except {A} (body : M A) (handler : exc -> M A) : M A :=
  fun w =>
    match body w with
    | (Ret a, w') => (Ret a, w')
    | (Raise e, w') => handler e w'
    end.

Notation "x <- m ;; k" := (bind m (fun x => k))
  (at level 61, m at next level, right associativity).
Notation "m ;;; k" := (bind m (fun _ => k))
  (at level 61, right associativity).

Definition emit (e : event) : M unit :=
  fun w => (Ret tt, {| gen := gen w; now := now w; firehose := firehose w;
                       calls := calls w; trace := (trace w ++ [e])%list |}).

Definition print (l : line) : M unit := emit (Print l).

Definition sleep (seconds : Z) : M unit := emit (Sleep seconds).

Definition uniform (a b : Q) : M Q :=
  fun w =>
    let (u, g') := PyRandom.uniform a b (gen w) in
    (Ret u, {| gen := g'; now := now w; firehose := firehose w;
               calls := calls w; trace := trace w |}).

Definition utcnow_isoformat : M string :=
  fun w =>
    let c := now w in
    (Ret (instants c (reads c)),
     {| gen := gen w; now := {| instants := instants c; reads := S (reads c) |};
        firehose := firehose w; calls := calls w; trace := trace w |}).

(** [firehose.put_record(DeliveryStreamName=s, Record={'Data': ...})]: the
    payload is the JSON text of the record and a newline, carried here as
    the record itself. *)
Definition put_record (s : string) (r : reading) : M (list (string * string)) :=
  fun w =>
    (firehose w (calls w) s r,
     {| gen := gen w; now := now w; firehose := firehose w;
        calls := S (calls w); trace := (trace w ++ [PutRecord s r])%list |}).

(** [d[key]] *)
Fixpoint getitem (d : list (string * string)) (key : string) : result string :=
  match d with
  | [] => Raise (KeyError key)
  | (k, v) :: rest => if String.eqb k key then Ret v else getitem rest key
  end.

Definition lift {A} (r : result A) : M A := fun w => (r, w).

Fixpoint for_each {A} (xs : list A) (body : A -> M unit) : M unit :=
  match xs with
  | [] => ret tt
  | x :: rest => body x ;;; for_each rest body
  end.

Section Simulator.

(** [os.environ['DELIVERY_STREAM_NAME']] and [os.environ['AWS_REGION']] *)
Variable DELIVERY_STREAM_NAME : string.
Variable AWS_REGION : string.

Definition generate_telemetry (room_name : string) (config : room_config)
  : M reading :=
  u <- uniform (-2) 2 ;;
  let temperature := PyFloat.round (temp_base config + u) 1 in
  v <- uniform (-5) 5 ;;
  let humidity := PyFloat.round (inject_Z (humidity_base config) + v) 1 in
  t <- utcnow_isoformat ;;
  ret {| room := room_name; temperature := temperature;
         humidity := humidity; time_recorded := t |}.

Definition send_to_firehose (record : reading) : M (option string) :=
  try_except
    (response <- put_record DELIVERY_STREAM_NAME record ;;
     record_id <- lift (getitem response "RecordId") ;;
     ret (Some record_id))
    (fun e => print (ErrorSending e) ;;; ret None).

(** The body of [for room_name, config in ROOMS.items()]. *)
Definition process_room (item : string * room_config) : M unit :=
  let (room_name, config) := item in
  telemetry <- generate_telemetry room_name config ;;
  record_id <- send_to_firehose telemetry ;;
  match record_id with
  | Some rid =>
      if truthy_str rid then
        print (Sent (time_recorded telemetry) room_name
                    (temperature telemetry) (humidity telemetry) rid)
      else print (FailedToSend (time_recorded telemetry) room_name)
  | None => print (FailedToSend (time_recorded telemetry) room_name)
  end.

(** One pass of the body of [while True]. *)
Definition iteration : M unit :=
  for_each ROOMS process_room ;;; sleep 30.

(** The first [n] passes of [while True]. *)
Fixpoint iterations (n : nat) : M unit :=
  match n with
  | O => ret tt
  | S k => iteration ;;; iterations k
  end.

Definition banner : list string :=
  [ "===================================";
    "Temperature Telemetry Simulator";
    "===================================";
    "Delivery Stream: " ++ DELIVERY_STREAM_NAME;
    "Region: " ++ AWS_REGION;
    "Rooms: " ++ String.concat ", " (map fst ROOMS);
    "Interval: 30 seconds";
    "===================================" ].

(** [main()], cut after [n] passes of its loop. *)
Definition main (n : nat) : M unit :=
  for_each banner (fun text => print (Banner text)) ;;; iterations n.

End Simulator.

(** The records handed to [put_record] in a trace, in order. *)
Definition puts (tr : list event) : list reading :=
  flat_map (fun e => match e with PutRecord _ r => [r] | _ => [] end) tr.

(** The reading [generate_telemetry] builds for the room [item] when it is
    the [i]-th room processed from a generator [g] and a clock [c]: every
    room takes two draws and one clock reading. *)
Definition reading_at (g : PyRandom.rng) (c : clock) (i : nat)
  (item : string * room_config) : reading :=
  {| room := fst item;
     temperature :=
       PyFloat.round (temp_base (snd item)
                      + (-2 + (2 - -2) * PyRandom.draw g (2 * i)))%Q 1;
     humidity :=
       PyFloat.round (inject_Z (humidity_base (snd item))
                      + (-5 + (5 - -5) * PyRandom.draw g (2 * i + 1)))%Q 1;
     time_recorded := instants c (reads c + i) |}.

Fixpoint readings_from (g : PyRandom.rng) (c : clock) (i : nat)
  (rooms : list (string * room_config)) : list reading :=
  match rooms with
  | [] => []
  | item :: rest => reading_at g c i item :: readings_from g c (S i) rest
  end.

(** What the loop printed about each room in a trace: the room and whether
    its send was reported as delivered. *)
Definition outcomes (tr : list event) : list (string * bool) :=
  flat_map (fun e => match e with
                     | Print (Sent _ name _ _ _) => [(name, true)]
                     | Print (FailedToSend _ name) => [(name, false)]
                     | _ => []
                     end) tr.

(** A world to run the simulator in: every draw is 1/2, the clock stands
    still, and the ingestion service behaves as [fh] says. *)
Definition world_of
  (fh : nat -> string -> reading -> result (list (string * string))) : world :=
  {| gen := PyRandom.constant (1 # 2);
     now := {| instants := fun _ => "2025-01-01T00:00:00+00:00"; reads := 0 |};
     firehose := fh;
     calls := 0;
     trace := [] |}.

(** Whether what [put_record] did counts as a delivery for the loop: it
    returned a response whose [RecordId] is a non-empty string. *)
Definition acknowledged (outcome : result (list (string * string))) : bool :=
  match outcome with
  | Ret response =>
      match getitem response "RecordId" with
      | Ret rid => truthy_str rid
      | Raise _ => false
      end
  | Raise _ => false
  end.

(** The pauses of a trace, in seconds, and the delivery streams its records
    were sent to. *)
Definition sleeps (tr : list event) : list Z :=
  flat_map (fun e => match e with Sleep n => [n] | _ => [] end) tr.

Definition streams (tr : list event) : list string :=
  flat_map (fun e => match e with PutRecord s _ => [s] | _ => [] end) tr.

Definition is_print (e : event) : bool :=
  match e with Print _ => true | _ => false end.

(** The clock after [k] more readings. *)
Definition tick (c : clock) (k : nat) : clock :=
  {| instants := instants c; reads := reads c + k |}.

(** The rooms processed by [n] passes of the loop, in order. *)
Definition rooms_of_passes (n : nat) : list (string * room_config) :=
  List.concat (repeat ROOMS n).



End Telemetry.

(* ------------------------------------------------------------------------- *)
(** * Rounding over the rationals *)

Section Rounding.
Import PyFloat.
Open Scope Q_scope.

Lemma round_half_even_floor (x : Q) :
  (Qfloor x <= round_half_even x <= Qfloor x + 1)%Z.
Proof.
  unfold round_half_even.
  destruct (x - inject_Z (Qfloor x) ?= 1 # 2); try lia.
  destruct (Z.even (Qfloor x)); lia.
Qed.

Lemma round_half_even_comp (x y : Q) :
  x == y -> round_half_even x = round_half_even y.
Proof.
  intros E. unfold round_half_even.
  rewrite <- (Qfloor_comp _ _ E).
  assert (D : x - inject_Z (Qfloor x) == y - inject_Z (Qfloor x))
    by (unfold Qminus; apply Qplus_comp; [exact E | reflexivity]).
  rewrite (Qcompare_comp _ _ D _ _ (Qeq_refl (1 # 2))). reflexivity.
Qed.

Lemma round_half_even_Z (z : Z) : round_half_even (inject_Z z) = z.
Proof.
  unfold round_half_even. rewrite Qfloor_Z.
  destruct (Qcompare_spec (inject_Z z - inject_Z z) (1 # 2)) as [E|L|G];
    try reflexivity; exfalso.
  - assert (inject_Z z - inject_Z z == 0) by ring. lra.
  - assert (inject_Z z - inject_Z z == 0) by ring. lra.
Qed.

Lemma round_half_even_lower (x : Q) (z : Z) :
  inject_Z z <= x -> (z <= round_half_even x)%Z.
Proof.
  intros H. apply Qfloor_resp_le in H. rewrite Qfloor_Z in H.
  pose proof (round_half_even_floor x). lia.
Qed.

Lemma round_half_even_upper (x : Q) (z : Z) :
  x <= inject_Z z -> (round_half_even x <= z)%Z.
Proof.
  intros H. pose proof (Qfloor_resp_le _ _ H) as F. rewrite Qfloor_Z in F.
  destruct (Z.eq_dec (Qfloor x) z) as [E|N].
  - pose proof (Qfloor_le x) as L. rewrite E in L.
    assert (X : x == inject_Z z) by lra.
    rewrite (round_half_even_comp _ _ X), round_half_even_Z. lia.
  - pose proof (round_half_even_floor x). lia.
Qed.

Lemma scale_pos (n : nat) : Zpos (scale n) = (10 ^ Z.of_nat n)%Z.
Proof.
  unfold scale. rewrite Z2Pos.id; [reflexivity|]. apply Z.pow_pos_nonneg; lia.
Qed.

Lemma round_comp (x y : Q) (n : nat) : x == y -> round x n = round y n.
Proof.
  intros E. unfold round. f_equal. apply round_half_even_comp.
  rewrite E. reflexivity.
Qed.

Lemma round_lower (x : Q) (n : nat) (z : Z) :
  z # scale n <= x -> z # scale n <= round x n.
Proof.
  intros H. unfold round.
  assert (L : (z <= round_half_even (x * inject_Z (Z.pos (scale n))))%Z).
  { apply round_half_even_lower.
    unfold Qle in *. simpl in *. nia. }
  unfold Qle. simpl. nia.
Qed.

Lemma round_upper (x : Q) (n : nat) (z : Z) :
  x <= z # scale n -> round x n <= z # scale n.
Proof.
  intros H. unfold round.
  assert (L : (round_half_even (x * inject_Z (Z.pos (scale n))) <= z)%Z).
  { apply round_half_even_upper.
    unfold Qle in *. simpl in *. nia. }
  unfold Qle. simpl. nia.
Qed.

Lemma round_decimal (x : Q) (n : nat) : decimal n (round x n).
Proof. eexists. unfold round. reflexivity. Qed.

Lemma round_of_decimal (q : Q) (n : nat) : decimal n q -> round q n == q.
Proof.
  intros [z E]. rewrite (round_comp _ _ n E). rewrite E. unfold round.
  assert (X : (z # scale n) * inject_Z (Z.pos (scale n)) == inject_Z z).
  { unfold Qeq, Qmult, inject_Z. cbn [Qnum Qden].
    rewrite Pos2Z.inj_mul. ring. }
  rewrite (round_half_even_comp _ _ X), round_half_even_Z. reflexivity.
Qed.

Lemma decimal_zero (n : nat) : decimal n 0.
Proof. exists 0%Z. unfold Qeq. simpl. reflexivity. Qed.

Lemma decimal_plus (n : nat) (p q : Q) :
  decimal n p -> decimal n q -> decimal n (p + q).
Proof.
  intros [a A] [b B]. exists (a + b)%Z. rewrite A, B.
  unfold Qeq. simpl. nia.
Qed.

Lemma decimal_comp (n : nat) (p q : Q) : p == q -> decimal n p -> decimal n q.
Proof. intros E [a A]. exists a. rewrite <- E. exact A. Qed.

Lemma max_cases (a b : Q) :
  (a < b /\ max a b = b) \/ (b <= a /\ max a b = a).
Proof.
  unfold max, Qltb. destruct (Qle_bool b a) eqn:E; simpl.
  - right. split; [apply Qle_bool_iff; exact E | reflexivity].
  - left. split; [|reflexivity].
    apply Qnot_le_lt. intros L. apply Qle_bool_iff in L. congruence.
Qed.


Lemma decimal_max (n : nat) (a b : Q) :
  decimal n a -> decimal n b -> decimal n (max a b).
Proof. intros A B. destruct (max_cases a b) as [[_ E]|[_ E]]; rewrite E; assumption. Qed.


End Rounding.

(* ------------------------------------------------------------------------- *)
(** * The heater controller *)

Section HeaterFacts.
Import Py Heater.

Lemma advance_zero (g : PyRandom.rng) : PyRandom.advance g 0 = g.
Proof. destruct g. unfold PyRandom.advance. simpl. f_equal. lia. Qed.

Lemma advance_succ (g : PyRandom.rng) (k : nat) :
  PyRandom.advance (snd (PyRandom.random g)) k = PyRandom.advance g (S k).
Proof. unfold PyRandom.advance. simpl. f_equal. lia. Qed.

Lemma draw_succ (g : PyRandom.rng) (j : nat) :
  PyRandom.draw (snd (PyRandom.random g)) j = PyRandom.draw g (S j).
Proof. unfold PyRandom.draw. simpl. f_equal. lia. Qed.

Lemma draw_zero (g : PyRandom.rng) : fst (PyRandom.random g) = PyRandom.draw g 0.
Proof. unfold PyRandom.draw. simpl. f_equal. lia. Qed.

Lemma consumption_step_entry (sp : Q) (acc : list day_entry) (g : PyRandom.rng) (d : Z) :
  consumption_step sp (acc, g) d
  = ((acc ++ [entry sp d (PyRandom.draw g 0)])%list, snd (PyRandom.random g)).
Proof.
  unfold consumption_step, PyRandom.uniform, entry.
  rewrite <- draw_zero. reflexivity.
Qed.

Lemma consumption_fold (sp : Q) :
  forall (k a : nat) (acc : list day_entry) (g : PyRandom.rng),
    fold_left (consumption_step sp)
              (map (fun i => 1 + Z.of_nat i) (seq a k)) (acc, g)
    = ((acc ++ map (fun j => entry sp (1 + Z.of_nat (a + j)) (PyRandom.draw g j))
                   (seq 0 k))%list,
       PyRandom.advance g k).
Proof.
  induction k as [|k IH]; intros a acc g.
  - simpl. rewrite app_nil_r, advance_zero. reflexivity.
  - cbn [seq map fold_left]. rewrite consumption_step_entry, IH.
    rewrite advance_succ, <- app_assoc. f_equal. f_equal.
    cbn [app]. rewrite Nat.add_0_r. f_equal.
    rewrite <- seq_shift, map_map. apply map_ext. intros j.
    rewrite draw_succ. f_equal. f_equal. lia.
Qed.

Lemma range_from_one (n : Z) :
  range 1 (n + 1) = map (fun i => 1 + Z.of_nat i) (seq 0 (Z.to_nat n)).
Proof. unfold range. do 3 f_equal. lia. Qed.

(** The reply of a call whose arguments pass validation, in closed form. *)
Lemma get_consumption_ok (v : value) (n : Z) (sp : Q) (st : state) :
  as_int v = Some n -> 1 <= n <= 365 -> as_number (setpoint st) = Some sp ->
  let daily := map (fun j => entry sp (1 + Z.of_nat j) (PyRandom.draw (gen st) j))
                   (seq 0 (Z.to_nat n)) in
  get_consumption v st
  = (Ret {| days := v;
            daily_consumption := daily;
            total_kwh := PyFloat.round (PyFloat.sum (map kwh daily)) 2;
            average_kwh_per_day :=
              PyFloat.round (PyFloat.sum (map kwh daily) / inject_Z n) 2 |},
     {| setpoint := setpoint st; gen := PyRandom.advance (gen st) (Z.to_nat n) |}).
Proof.
  intros Hv Hn Hsp. unfold get_consumption. rewrite Hv.
  replace ((n <? 1) || (n >? 365)) with false by lia.
  rewrite Hsp, range_from_one, consumption_fold. reflexivity.
Qed.

Lemma get_consumption_setpoint (v : value) (st : state) :
  setpoint (snd (get_consumption v st)) = setpoint st.
Proof.
  unfold get_consumption.
  destruct (as_int v) as [n|]; [|reflexivity].
  destruct ((n <? 1) || (n >? 365)); [reflexivity|].
  destruct (as_number (setpoint st)); [|reflexivity].
  destruct (fold_left _ _ _). reflexivity.
Qed.

Lemma handle_not_modify (c : call) (st : state) :
  is_modify c = false -> setpoint (handle c st) = setpoint st.
Proof.
  destruct c; simpl; intros H; try discriminate.
  - reflexivity.
  - apply get_consumption_setpoint.
Qed.

Lemma run_not_modify (cs : list call) (st : state) :
  forallb (fun c => negb (is_modify c)) cs = true ->
  setpoint (run cs st) = setpoint st.
Proof.
  revert st. induction cs as [|c cs IH]; intros st H; [reflexivity|].
  simpl in H. apply andb_prop in H. destruct H as [Hc Hcs].
  unfold run in *. simpl. rewrite (IH _ Hcs).
  apply handle_not_modify. destruct (is_modify c); [discriminate|reflexivity].
Qed.

Lemma modify_setpoint_cases (v : value) (st : state) :
  (exists t, as_int v = Some t /\ 8 <= t <= 25 /\
     modify_setpoint v st
     = (Ret {| previous_setpoint := setpoint st; new_setpoint := v;
               status := "updated"; unit := "celsius" |},
        {| setpoint := v; gen := gen st |}))
  \/ ((as_int v = None \/ exists t, as_int v = Some t /\ (t < 8 \/ 25 < t)) /\
      exists msg, modify_setpoint v st = (Raise (ValueError msg), st)).
Proof.
  unfold modify_setpoint. destruct (as_int v) as [t|] eqn:E.
  - destruct ((8 <=? t) && (t <=? 25)) eqn:R; simpl.
    + left. exists t. repeat split; lia.
    + right. split; [right; exists t; split; [reflexivity|lia] | eauto].
  - right. split; [left; reflexivity | eauto].
Qed.

Lemma handle_setpoint_ok (c : call) (st : state) :
  setpoint_ok st = true -> setpoint_ok (handle c st) = true.
Proof.
  intros H. destruct c as [|v|v].
  - exact H.
  - simpl. destruct (modify_setpoint_cases v st) as [(t & E & R & M)|(_ & msg & M)];
      rewrite M; simpl; [|exact H].
    unfold setpoint_ok. simpl.
    destruct v as [|[]| | |]; simpl in E; try discriminate; inversion E; subst; lia.
  - unfold setpoint_ok. simpl. rewrite get_consumption_setpoint. exact H.
Qed.

End HeaterFacts.

Section HeaterContract.
Import Py Heater.


Lemma sum_decimal (n : nat) (xs : list Q) :
  Forall (PyFloat.decimal n) xs -> PyFloat.decimal n (PyFloat.sum xs).
Proof.
  unfold PyFloat.sum. generalize (decimal_zero n). generalize 0%Q.
  induction xs as [|x xs IH]; intros acc Hacc H; [exact Hacc|].
  inversion H; subst. simpl. apply IH; [apply decimal_plus|]; assumption.
Qed.

Lemma run_setpoint_ok (cs : list call) (st : state) :
  setpoint_ok st = true -> setpoint_ok (run cs st) = true.
Proof.
  revert st. induction cs as [|c cs IH]; intros st H; [exact H|].
  unfold run in *. simpl. apply IH, handle_setpoint_ok, H.
Qed.

(** C1: for every integer [t] with [8 <= t <= 25], [modify_setpoint(t)]
    succeeds; the record it returns has [previous_setpoint] equal to the
    setpoint stored before the call, [new_setpoint] equal to [t], status
    "updated" and unit "celsius"; and [get_setpoint()] returns setpoint [t]
    right after the call and after any further calls that are not
    [modify_setpoint]. *)
Theorem modify_setpoint_updates (t : Z) (st : state) (Ht : 8 <= t <= 25) :
  exists st',
    modify_setpoint (PyInt t) st
    = (Ret {| previous_setpoint := setpoint st; new_setpoint := PyInt t;
              status := "updated"; unit := "celsius" |}, st')
    /\ fst (get_setpoint st')
       = Ret {| sr_setpoint := PyInt t; sr_unit := "celsius" |}
    /\ forall cs, forallb (fun c => negb (is_modify c)) cs = true ->
         fst (get_setpoint (run cs st'))
         = Ret {| sr_setpoint := PyInt t; sr_unit := "celsius" |}.
Proof.
  destruct (modify_setpoint_cases (PyInt t) st) as [(t' & E & _ & M)|(B & _)].
  - eexists. split; [exact M|]. split; [reflexivity|].
    intros cs H. unfold get_setpoint. simpl.
    rewrite (run_not_modify cs _ H). reflexivity.
  - exfalso. simpl in B. destruct B as [B|(t' & E & B)]; [discriminate|].
    inversion E; subst. lia.
Qed.

(** C2: [modify_setpoint(t)] raises if and only if [t] is not an [int] or
    lies outside 8..25; what it raises is a [ValueError], and the stored
    state is then the one before the call; when it does not raise, the
    stored setpoint is [t]. *)
Theorem modify_setpoint_rejects (v : value) (st : state) :
  (is_ret (fst (modify_setpoint v st)) = false
   <-> (isinstance_int v = false
        \/ exists t, as_int v = Some t /\ (t < 8 \/ 25 < t)))
  /\ (forall e, fst (modify_setpoint v st) = Raise e ->
        (exists msg, e = ValueError msg) /\ snd (modify_setpoint v st) = st)
  /\ (is_ret (fst (modify_setpoint v st)) = true ->
        setpoint (snd (modify_setpoint v st)) = v).
Proof.
  unfold isinstance_int.
  destruct (modify_setpoint_cases v st) as [(t & E & R & M)|(B & msg & M)];
    rewrite M; simpl.
  - split; [split|split].
    + discriminate.
    + rewrite E. intros [F|(t' & E' & F)]; [discriminate|].
      inversion E'; subst. lia.
    + discriminate.
    + reflexivity.
  - split; [split|split].
    + intros _. destruct B as [B|B]; [left; rewrite B; reflexivity | right; exact B].
    + reflexivity.
    + intros e H. inversion H. eauto.
    + discriminate.
Qed.

(** C9: the setpoint starts at 20; after any sequence of [get_setpoint],
    [modify_setpoint] and [get_consumption] calls, with any arguments, the
    stored setpoint is an integer within 8..25; a call that changes it is a
    [modify_setpoint]; [get_setpoint] and [get_consumption] leave it as it
    was. *)
Theorem setpoint_invariant (g : PyRandom.rng) (cs : list call) :
  setpoint (initial g) = PyInt 20
  /\ (exists z, setpoint (run cs (initial g)) = PyInt z /\ 8 <= z <= 25)
  /\ (forall c st, setpoint (handle c st) <> setpoint st -> is_modify c = true)
  /\ (forall st, snd (get_setpoint st) = st)
  /\ (forall d st, setpoint (snd (get_consumption d st)) = setpoint st).
Proof.
  split; [reflexivity|]. split; [|split; [|split]].
  - assert (H : setpoint_ok (run cs (initial g)) = true)
      by (apply run_setpoint_ok; reflexivity).
    unfold setpoint_ok in H.
    destruct (setpoint (run cs (initial g))); try discriminate.
    eexists. split; [reflexivity|lia].
  - intros c st H. destruct (is_modify c) eqn:E; [reflexivity|].
    exfalso. apply H, handle_not_modify, E.
  - reflexivity.
  - apply get_consumption_setpoint.
Qed.

End HeaterContract.

Section ConsumptionContract.
Import Py Heater.
Open Scope Q_scope.

Lemma perturbation_range (a b r : Q) :
  a <= b -> 0 <= r /\ r < 1 -> a <= a + (b - a) * r /\ (a < b -> a + (b - a) * r < b).
Proof. intros Hab [H0 H1]. split; [|intros Hlt]; nra. Qed.



End ConsumptionContract.

(* ------------------------------------------------------------------------- *)
(** * The weather service *)

Section WeatherContract.
Import Py Weather.
Open Scope Q_scope.

Lemma truthy_str_empty (s : string) : truthy_str s = false <-> s = "".
Proof. destruct s; simpl; split; intros H; congruence. Qed.

Lemma getenv_unset (env : list (string * string)) (name default : string) :
  (forall v, ~ In (name, v) env) -> getenv env name default = default.
Proof.
  induction env as [|[k v] env IH]; intros H; [reflexivity|].
  simpl. destruct (String.eqb_spec k name) as [->|N].
  - exfalso. apply (H v). left. reflexivity.
  - apply IH. intros v' Hin. apply (H v'). right. exact Hin.
Qed.

Lemma verify_api_key_cases (expected key : string) :
  (expected = "" /\ verify_api_key expected key
                    = Raise (HTTPException 500 "API key not configured"))
  \/ (expected <> "" /\ key <> expected
      /\ verify_api_key expected key = Raise (HTTPException 401 "Invalid API key"))
  \/ (expected <> "" /\ key = expected /\ verify_api_key expected key = Ret key).
Proof.
  unfold verify_api_key. destruct (truthy_str expected) eqn:T; simpl.
  - assert (N : expected <> "")
      by (intros E; apply truthy_str_empty in E; congruence).
    destruct (String.eqb_spec key expected) as [E|E]; simpl; auto.
  - left. split; [apply truthy_str_empty; exact T | reflexivity].
Qed.

Lemma weather_temperature_range (g : PyRandom.rng) :
  PyRandom.well_formed g ->
  let u := -10 + (-4 - -10) * PyRandom.draw g 0 in
  -10 <= u /\ u < -4
  /\ -10 <= PyFloat.round u 1 /\ PyFloat.round u 1 <= -4.
Proof.
  intros Hg u.
  destruct (perturbation_range (-10) (-4) (PyRandom.draw g 0)) as [L U];
    [lra | apply Hg |]. specialize (U ltac:(lra)). fold u in L, U.
  split; [exact L|]. split; [exact U|].
  pose proof (round_lower u 1 (-100)) as RL.
  pose proof (round_upper u 1 (-40)) as RU.
  change (PyFloat.scale 1) with 10%positive in RL, RU.
  split.
  - assert (-100 # 10 <= PyFloat.round u 1) by (apply RL; lra). lra.
  - assert (PyFloat.round u 1 <= -40 # 10) by (apply RU; lra). lra.
Qed.

Lemma get_weather_reply (request : WeatherRequest) (key : string) (g : PyRandom.rng) :
  get_weather request key g
  = ({| location := req_location request;
        temperature := PyFloat.round (-10 + (-4 - -10) * PyRandom.draw g 0) 1;
        description := "Sunny and clear skies" |},
     snd (PyRandom.random g)).
Proof.
  unfold get_weather, PyRandom.uniform. rewrite <- draw_zero. reflexivity.
Qed.

(** C5: when no API key is configured on the server (the variable is unset
    or empty), a lookup fails with HTTP 500 whatever key is supplied, the
    empty one included; when a key is configured and the supplied
    [X-API-Key] differs from it, the lookup fails with HTTP 401; when the
    supplied key is the configured one, the lookup succeeds with HTTP 200
    and a temperature within -10.0 .. -4.0. *)
Theorem weather_authentication
  (env : list (string * string)) (key : string) (request : WeatherRequest)
  (g : PyRandom.rng) :
  ((forall v, ~ In ("API_KEY", v) env) -> EXPECTED_API_KEY env = "")
  /\ (EXPECTED_API_KEY env = "" ->
      exists detail, post_weather env key request g = (ErrorResponse 500 detail, g))
  /\ (EXPECTED_API_KEY env <> "" -> key <> EXPECTED_API_KEY env ->
      exists detail, post_weather env key request g = (ErrorResponse 401 detail, g))
  /\ (EXPECTED_API_KEY env <> "" -> key = EXPECTED_API_KEY env ->
      PyRandom.well_formed g ->
      exists body g',
        post_weather env key request g = (Response 200 body, g')
        /\ -10 <= temperature body /\ temperature body <= -4).
Proof.
  split; [apply getenv_unset|].
  unfold post_weather.
  destruct (verify_api_key_cases (EXPECTED_API_KEY env) key)
    as [(E & V)|[(N & D & V)|(N & D & V)]]; rewrite V.
  - split; [eauto|]. split; intros; congruence.
  - split; [congruence|]. split; [eauto|]. intros; congruence.
  - split; [congruence|]. split; [congruence|]. intros _ _ Hg.
    rewrite get_weather_reply. eexists. eexists. split; [reflexivity|].
    cbn [temperature]. apply (weather_temperature_range g Hg).
Qed.

End WeatherContract.

Section WeatherReply.
Import Py Weather.
Open Scope Q_scope.

Lemma constant_well_formed (q : Q) :
  0 <= q -> q < 1 -> PyRandom.well_formed (PyRandom.constant q).
Proof. intros L U n. simpl. split; assumption. Qed.




(** C10: the temperature and the description of a weather lookup do not
    depend on the request's location: two requests that carry the
    configured key and meet the same random source get the same
    temperature and the same description (and leave the random source in
    the same state), each with its own location echoed. *)
Theorem weather_location_independent
  (env : list (string * string)) (key1 key2 : string)
  (request1 request2 : WeatherRequest) (g : PyRandom.rng)
  (Hc : EXPECTED_API_KEY env <> "")
  (H1 : key1 = EXPECTED_API_KEY env) (H2 : key2 = EXPECTED_API_KEY env) :
  exists body1 body2 g',
    post_weather env key1 request1 g = (Response 200 body1, g')
    /\ post_weather env key2 request2 g = (Response 200 body2, g')
    /\ temperature body1 = temperature body2
    /\ description body1 = description body2
    /\ location body1 = req_location request1
    /\ location body2 = req_location request2.
Proof.
  unfold post_weather.
  destruct (verify_api_key_cases (EXPECTED_API_KEY env) key1)
    as [(E & _)|[(_ & D & _)|(_ & _ & V1)]]; try congruence.
  destruct (verify_api_key_cases (EXPECTED_API_KEY env) key2)
    as [(E & _)|[(_ & D & _)|(_ & _ & V2)]]; try congruence.
  rewrite V1, V2, !get_weather_reply.
  do 3 eexists. repeat split.
Qed.

Lemma weather_location_independent_witness :
  exists body1 body2 g',
    post_weather [("API_KEY", "secret")] "secret" {| req_location := "Oslo" |}
                 (PyRandom.constant (1 # 2)) = (Response 200 body1, g')
    /\ post_weather [("API_KEY", "secret")] "secret" {| req_location := "Lund" |}
                    (PyRandom.constant (1 # 2)) = (Response 200 body2, g')
    /\ temperature body1 = temperature body2
    /\ description body1 = description body2
    /\ location body1 = "Oslo"
    /\ location body2 = "Lund".
Proof.
  apply (weather_location_independent
           [("API_KEY", "secret")] "secret" "secret"
           {| req_location := "Oslo" |} {| req_location := "Lund" |}
           (PyRandom.constant (1 # 2))).
  - vm_compute. discriminate.
  - reflexivity.
  - reflexivity.
Defined.

End WeatherReply.

(* ------------------------------------------------------------------------- *)
(** * The telemetry simulator *)

Section TelemetryFacts.
Import Py Telemetry.

Variable stream_name : string.

Lemma puts_app (tr tr' : list event) : puts (tr ++ tr') = (puts tr ++ puts tr')%list.
Proof. apply flat_map_app. Qed.

Lemma draw_advance (g : PyRandom.rng) (k i : nat) :
  PyRandom.draw (PyRandom.advance g k) i = PyRandom.draw g (k + i).
Proof. unfold PyRandom.draw, PyRandom.advance. simpl. f_equal. lia. Qed.

Lemma advance_advance (g : PyRandom.rng) (k k' : nat) :
  PyRandom.advance (PyRandom.advance g k) k' = PyRandom.advance g (k + k').
Proof. unfold PyRandom.advance. simpl. f_equal. lia. Qed.

(** What [generate_telemetry] returns, and the world it leaves. *)
Lemma generate_telemetry_reading (name : string) (config : room_config) (w : world) :
  generate_telemetry name config w
  = (Ret (reading_at (gen w) (now w) 0 (name, config)),
     {| gen := PyRandom.advance (gen w) 2;
        now := {| instants := instants (now w); reads := S (reads (now w)) |};
        firehose := firehose w; calls := calls w; trace := trace w |}).
Proof.
  destruct w as [[str c] [ins rd] fh k tr].
  unfold generate_telemetry, reading_at, bind, uniform, utcnow_isoformat, ret,
    PyRandom.uniform, PyRandom.random, PyRandom.draw, PyRandom.advance.
  cbn [gen now firehose calls trace PyRandom.stream PyRandom.consumed
       instants reads fst snd Nat.mul Nat.add].
  rewrite !Nat.add_0_r. replace (c + 1)%nat with (S c) by lia.
  replace (c + 2)%nat with (S (S c)) by lia. reflexivity.
Qed.

(** [send_to_firehose] returns, whatever the ingestion service does. *)
Lemma send_to_firehose_total (r : reading) (w : world) :
  exists o w',
    send_to_firehose stream_name r w = (Ret o, w')
    /\ gen w' = gen w /\ now w' = now w /\ firehose w' = firehose w
    /\ calls w' = S (calls w)
    /\ puts (trace w') = (puts (trace w) ++ [r])%list
    /\ (forall e, firehose w (calls w) stream_name r = Raise e ->
          o = None
          /\ trace w' = (trace w ++ [PutRecord stream_name r; Print (ErrorSending e)])%list)
    /\ (forall response e,
          firehose w (calls w) stream_name r = Ret response ->
          getitem response "RecordId" = Raise e ->
          o = None
          /\ trace w' = (trace w ++ [PutRecord stream_name r; Print (ErrorSending e)])%list)
    /\ (forall response rid,
          firehose w (calls w) stream_name r = Ret response ->
          getitem response "RecordId" = Ret rid ->
          o = Some rid /\ trace w' = (trace w ++ [PutRecord stream_name r])%list).
Proof.
  unfold send_to_firehose, try_except, bind, put_record, lift, ret, print, emit.
  destruct (firehose w (calls w) stream_name r) as [response|e] eqn:F.
  - destruct (getitem response "RecordId") as [rid|e] eqn:G;
      cbn [gen now firehose calls trace]; do 2 eexists;
      (split; [reflexivity|]); cbn [gen now firehose calls trace];
      repeat (split; [reflexivity|]).
    + split; [rewrite puts_app; reflexivity|].
      split; [discriminate|]. split; intros ? ? H1 H2; inversion H1; subst.
      * congruence.
      * rewrite G in H2. inversion H2. split; reflexivity.
    + rewrite <- app_assoc. cbn [app].
      split; [rewrite puts_app; reflexivity|].
      split; [discriminate|]. split; intros ? ? H1 H2; inversion H1; subst.
      * rewrite G in H2. inversion H2. split; reflexivity.
      * congruence.
  - cbn [gen now firehose calls trace]. do 2 eexists.
    split; [reflexivity|]. cbn [gen now firehose calls trace].
    repeat (split; [reflexivity|]). rewrite <- app_assoc. cbn [app].
    split; [rewrite puts_app; reflexivity|].
    split; [|split; discriminate].
    intros e' H. inversion H. split; reflexivity.
Qed.

Lemma process_room_total (item : string * room_config) (w : world) :
  exists w',
    process_room stream_name item w = (Ret tt, w')
    /\ gen w' = PyRandom.advance (gen w) 2
    /\ now w' = {| instants := instants (now w); reads := S (reads (now w)) |}
    /\ firehose w' = firehose w
    /\ calls w' = S (calls w)
    /\ puts (trace w') = (puts (trace w) ++ [reading_at (gen w) (now w) 0 item])%list.
Proof.
  destruct item as [name config]. unfold process_room, bind.
  rewrite generate_telemetry_reading.
  set (r := reading_at (gen w) (now w) 0 (name, config)).
  match goal with |- context [send_to_firehose _ _ ?w1] =>
    destruct (send_to_firehose_total r w1) as (o & w2 & E & G & N & F & C & P & _)
  end.
  rewrite E. cbn [gen now firehose calls trace] in G, N, F, C, P.
  assert (X : forall l, exists w',
             print l w2 = (Ret tt, w')
             /\ gen w' = PyRandom.advance (gen w) 2
             /\ now w' = {| instants := instants (now w); reads := S (reads (now w)) |}
             /\ firehose w' = firehose w
             /\ calls w' = S (calls w)
             /\ puts (trace w') = (puts (trace w) ++ [r])%list).
  { intros l. unfold print, emit. eexists. split; [reflexivity|].
    cbn [gen now firehose calls trace]. rewrite puts_app, app_nil_r. auto. }
  destruct o as [rid|]; [destruct (truthy_str rid)|]; apply X.
Qed.

Lemma readings_from_next (g : PyRandom.rng) (c : clock) :
  forall (rooms : list (string * room_config)) (i : nat),
    readings_from (PyRandom.advance g 2)
                  {| instants := instants c; reads := S (reads c) |} i rooms
    = readings_from g c (S i) rooms.
Proof.
  induction rooms as [|item rooms IH]; intros i; [reflexivity|].
  cbn [readings_from]. rewrite IH. f_equal.
  unfold reading_at. rewrite !draw_advance. cbn [instants reads].
  replace (2 + 2 * i)%nat with (2 * S i)%nat by lia.
  replace (2 + (2 * i + 1))%nat with (2 * S i + 1)%nat by lia.
  replace (S (reads c) + i)%nat with (reads c + S i)%nat by lia.
  reflexivity.
Qed.

Lemma readings_from_rooms (g : PyRandom.rng) (c : clock) :
  forall (rooms : list (string * room_config)) (i : nat),
    map room (readings_from g c i rooms) = map fst rooms.
Proof.
  induction rooms as [|item rooms IH]; intros i; [reflexivity|].
  cbn [readings_from map]. rewrite IH. reflexivity.
Qed.

(** The loop over the rooms runs to its end, whatever the sends do. *)
Lemma rooms_loop_total :
  forall (rooms : list (string * room_config)) (w : world),
  exists w',
    for_each rooms (process_room stream_name) w = (Ret tt, w')
    /\ gen w' = PyRandom.advance (gen w) (2 * List.length rooms)
    /\ firehose w' = firehose w
    /\ calls w' = (calls w + List.length rooms)%nat
    /\ puts (trace w')
       = (puts (trace w) ++ readings_from (gen w) (now w) 0 rooms)%list.
Proof.
  induction rooms as [|item rooms IH]; intros w.
  - exists w. cbn [for_each List.length readings_from]. unfold ret.
    rewrite advance_zero, app_nil_r, Nat.add_0_r. auto.
  - destruct (process_room_total item w) as (w1 & E1 & G1 & N1 & F1 & C1 & P1).
    destruct (IH w1) as (w2 & E2 & G2 & F2 & C2 & P2).
    exists w2. cbn [for_each]. unfold bind at 1. rewrite E1, E2.
    split; [reflexivity|]. cbn [List.length readings_from].
    rewrite G2, G1, advance_advance, F2, F1, C2, C1, P2, P1, G1, N1.
    rewrite readings_from_next, <- app_assoc.
    split; [f_equal; lia|]. split; [reflexivity|]. split; [lia|reflexivity].
Qed.

Lemma iteration_total (w : world) :
  exists w',
    iteration stream_name w = (Ret tt, w')
    /\ gen w' = PyRandom.advance (gen w) 6
    /\ firehose w' = firehose w
    /\ calls w' = (calls w + 3)%nat
    /\ puts (trace w')
       = (puts (trace w) ++ readings_from (gen w) (now w) 0 ROOMS)%list.
Proof.
  destruct (rooms_loop_total ROOMS w) as (w1 & E & G & F & C & P).
  unfold iteration, bind. rewrite E. unfold sleep, emit.
  eexists. split; [reflexivity|]. cbn [gen now firehose calls trace].
  rewrite puts_app, app_nil_r. auto.
Qed.

Lemma iterations_total :
  forall (n : nat) (w : world),
  exists w',
    iterations stream_name n w = (Ret tt, w')
    /\ firehose w' = firehose w
    /\ calls w' = (calls w + 3 * n)%nat
    /\ map room (puts (trace w'))
       = (map room (puts (trace w)) ++ List.concat (repeat (map fst ROOMS) n))%list.
Proof.
  induction n as [|n IH]; intros w.
  - exists w. cbn [iterations repeat List.concat]. unfold ret.
    rewrite app_nil_r. repeat split. lia.
  - destruct (iteration_total w) as (w1 & E1 & _ & F1 & C1 & P1).
    destruct (IH w1) as (w2 & E2 & F2 & C2 & P2).
    exists w2. cbn [iterations]. unfold bind at 1. rewrite E1, E2.
    split; [reflexivity|]. rewrite F2, F1, C2, C1, P2, P1.
    rewrite map_app, readings_from_rooms, <- app_assoc.
    split; [reflexivity|]. split; [lia|reflexivity].
Qed.

End TelemetryFacts.

Section TelemetryContract.
Import Py Telemetry.
Open Scope Q_scope.


Lemma banner_total (texts : list string) :
  forall w : world,
  exists w', for_each texts (fun text => print (Banner text)) w = (Ret tt, w')
             /\ calls w' = calls w /\ puts (trace w') = puts (trace w).
Proof.
  induction texts as [|t texts IH]; intros w.
  - exists w. repeat split.
  - cbn [for_each]. unfold bind at 1, print at 1, emit.
    match goal with |- context [for_each texts _ ?w1] =>
      destruct (IH w1) as (w2 & E & C & P) end.
    exists w2. rewrite E. split; [reflexivity|].
    cbn [calls trace] in C, P. rewrite C, P, puts_app, app_nil_r. auto.
Qed.




(** C8: [send_to_firehose] never raises: when [put_record] raises, or its
    response has no record identifier, the exception is caught and the send
    returns [None]; so every pass of the loop completes, with one send
    attempt per room in order, whatever the ingestion service does at each
    call, and so do any number of passes and [main] up to any pass. *)
Theorem send_failure_is_not_fatal (stream_name region : string) :
  (forall r w,
      exists o w',
        send_to_firehose stream_name r w = (Ret o, w')
        /\ (forall e, firehose w (calls w) stream_name r = Raise e -> o = None)
        /\ (forall response e,
              firehose w (calls w) stream_name r = Ret response ->
              getitem response "RecordId" = Raise e -> o = None))
  /\ (forall w,
        exists w',
          iteration stream_name w = (Ret tt, w')
          /\ calls w' = (calls w + 3)%nat
          /\ map room (puts (trace w'))
             = (map room (puts (trace w)) ++ ["kitchen"; "livingroom"; "bedroom"])%list)
  /\ (forall n w,
        exists w',
          iterations stream_name n w = (Ret tt, w')
          /\ calls w' = (calls w + 3 * n)%nat
          /\ map room (puts (trace w'))
             = (map room (puts (trace w))
                ++ List.concat (repeat ["kitchen"; "livingroom"; "bedroom"] n))%list)
  /\ (forall n w,
        exists w',
          main stream_name region n w = (Ret tt, w')
          /\ calls w' = (calls w + 3 * n)%nat).
Proof.
  split; [|split; [|split]].
  - intros r w.
    destruct (send_to_firehose_total stream_name r w)
      as (o & w' & E & _ & _ & _ & _ & _ & H1 & H2 & _).
    exists o, w'. split; [exact E|]. split.
    + intros e F. apply (H1 e F).
    + intros response e F G. apply (H2 response e F G).
  - intros w.
    destruct (iteration_total stream_name w) as (w' & E & _ & _ & C & P).
    exists w'. split; [exact E|]. split; [exact C|].
    rewrite P, map_app, readings_from_rooms. reflexivity.
  - intros n w.
    destruct (iterations_total stream_name n w) as (w' & E & _ & C & P).
    exists w'. split; [exact E|]. split; [exact C|exact P].
  - intros n w. unfold main, bind.
    destruct (banner_total (banner stream_name region) w) as (w1 & E1 & C1 & _).
    destruct (iterations_total stream_name n w1) as (w2 & E2 & _ & C2 & _).
    exists w2. rewrite E1, E2. split; [reflexivity|]. rewrite C2, C1. reflexivity.
Qed.

(** A pass in which the second send fails: the third room is still sent. *)
Example second_send_fails :
  let fh := fun (k : nat) (_ : string) (_ : reading) =>
              if Nat.eqb k 1 then Raise (ClientError "ServiceUnavailable")
              else Ret [("RecordId", "shard-0")] in
  let w' := snd (iteration "house" (world_of fh)) in
  outcomes (trace w') = [("kitchen", true); ("livingroom", false); ("bedroom", true)]
  /\ calls w' = 3%nat.
Proof. split; reflexivity. Qed.

End TelemetryContract.

(* ------------------------------------------------------------------------- *)
(** * The contracts at concrete inputs *)

Section Runs.
Import Py Heater.
Open Scope Q_scope.

(** The scenario of the specification: the default setpoint is 20, and
    [modify_setpoint(15)] reports 20 and 15 and stores 15. *)
Example default_scenario :
  fst (get_setpoint (initial (PyRandom.constant (1 # 2))))
  = Ret {| sr_setpoint := PyInt 20; sr_unit := "celsius" |}
  /\ fst (modify_setpoint (PyInt 15) (initial (PyRandom.constant (1 # 2))))
     = Ret {| previous_setpoint := PyInt 20; new_setpoint := PyInt 15;
              status := "updated"; unit := "celsius" |}
  /\ fst (get_setpoint (snd (modify_setpoint (PyInt 15) (initial (PyRandom.constant (1 # 2))))))
     = Ret {| sr_setpoint := PyInt 15; sr_unit := "celsius" |}.
Proof. repeat split. Qed.

Example rejected_setpoints :
  map (fun v => is_ret (fst (modify_setpoint v (initial (PyRandom.constant (1 # 2))))))
      [PyInt 7; PyInt 8; PyInt 25; PyInt 26; PyBool true; PyFloat 20; PyStr "20"; PyNone]
  = [false; true; true; false; false; false; false; false].
Proof. reflexivity. Qed.

(** With the setpoint at 20 and a draw of 1/2 the perturbation is 0 and the
    day's consumption is 24 kWh. *)
Example one_day :
  match fst (get_consumption (PyInt 1) (initial (PyRandom.constant (1 # 2)))) with
  | Ret r =>
      map day (daily_consumption r) = [1%Z]
      /\ Forall (fun e => kwh e == 24) (daily_consumption r)
      /\ total_kwh r == 24 /\ average_kwh_per_day r == 24
  | Raise _ => False
  end.
Proof. vm_compute. repeat split; try constructor; auto; discriminate. Qed.

Example rejected_days :
  map (fun v => is_ret (fst (get_consumption v (initial (PyRandom.constant (1 # 2))))))
      [PyInt 0; PyInt 1; PyInt 365; PyInt 366; PyFloat 3; PyStr "3"]
  = [false; true; true; false; false; false].
Proof. vm_compute. reflexivity. Qed.

Example rounding_ties_to_even :
  PyFloat.round (1 # 8) 2 == 12 # 100 /\ PyFloat.round (3 # 8) 2 == 38 # 100
  /\ PyFloat.round (-(1 # 8)) 2 == -12 # 100 /\ PyFloat.round (-401 # 100) 1 == -4.
Proof. repeat split. Qed.

Lemma modify_setpoint_updates_witness :
  (8 <= 15 <= 25)%Z
  /\ exists st',
       modify_setpoint (PyInt 15) (initial (PyRandom.constant (1 # 2)))
       = (Ret {| previous_setpoint := PyInt 20; new_setpoint := PyInt 15;
                 status := "updated"; unit := "celsius" |}, st')
       /\ fst (get_setpoint st')
          = Ret {| sr_setpoint := PyInt 15; sr_unit := "celsius" |}.
Proof.
  assert (R : (8 <= 15 <= 25)%Z) by lia.
  split; [exact R|].
  destruct (modify_setpoint_updates 15 (initial (PyRandom.constant (1 # 2))) R) as (st' & M & G & _).
  exists st'. split; [exact M | exact G].
Defined.



Lemma weather_authentication_witness :
  exists body g',
    Weather.post_weather [("API_KEY", "secret")] "secret"
                         {| Weather.req_location := "Oslo" |} (PyRandom.constant (1 # 2))
    = (Weather.Response 200 body, g')
    /\ -10 <= Weather.temperature body /\ Weather.temperature body <= -4.
Proof.
  apply (weather_authentication [("API_KEY", "secret")] "secret"
                                {| Weather.req_location := "Oslo" |} (PyRandom.constant (1 # 2))).
  - vm_compute. discriminate.
  - reflexivity.
  - apply constant_well_formed; lra.
Defined.

End Runs.

(* ------------------------------------------------------------------------- *)
(** * Further properties of the heater controller *)

Section HeaterSessions.
Import Py Heater.
Open Scope Q_scope.

(** A successful [get_consumption], read backwards: its argument passed both
    checks and the reply and the state have the closed form. *)
Lemma get_consumption_inv (v : value) (st st' : state) (r : consumption_reply) :
  get_consumption v st = (Ret r, st') ->
  exists (d : Z) (sp : Q),
    as_int v = Some d /\ (1 <= d <= 365)%Z /\ as_number (setpoint st) = Some sp
    /\ daily_consumption r
       = map (fun j => entry sp (1 + Z.of_nat j) (PyRandom.draw (gen st) j))
             (seq 0 (Z.to_nat d))
    /\ days r = v
    /\ total_kwh r = PyFloat.round (PyFloat.sum (map kwh (daily_consumption r))) 2
    /\ average_kwh_per_day r
       = PyFloat.round (PyFloat.sum (map kwh (daily_consumption r)) / inject_Z d) 2
    /\ st' = {| setpoint := setpoint st;
                gen := PyRandom.advance (gen st) (Z.to_nat d) |}.
Proof.
  intros H. pose proof H as H0. unfold get_consumption in H0.
  destruct (as_int v) as [d|] eqn:Ev; [|discriminate].
  destruct ((d <? 1) || (d >? 365))%Z eqn:Er; [discriminate|].
  destruct (as_number (setpoint st)) as [sp|] eqn:Es; [|discriminate].
  clear H0. assert (Hd : (1 <= d <= 365)%Z) by lia.
  rewrite (get_consumption_ok v d sp st Ev Hd Es) in H.
  inversion H; subst; clear H. exists d, sp. cbn.
  repeat split; try reflexivity; lia.
Qed.

Lemma get_consumption_error_state (v : value) (st : state) :
  is_ret (fst (get_consumption v st)) = false -> snd (get_consumption v st) = st.
Proof.
  unfold get_consumption.
  destruct (as_int v) as [n|]; [|reflexivity].
  destruct ((n <? 1) || (n >? 365))%Z; [reflexivity|].
  destruct (as_number (setpoint st)); [|reflexivity].
  destruct (fold_left _ _ _). discriminate.
Qed.

Lemma setpoint_ok_number (st : state) :
  setpoint_ok st = true ->
  exists s : Z, setpoint st = PyInt s /\ (8 <= s <= 25)%Z
                /\ as_number (setpoint st) = Some (inject_Z s).
Proof.
  unfold setpoint_ok. destruct (setpoint st) as [| | s | |]; try discriminate.
  intros H. exists s. repeat split; lia.
Qed.

Lemma entry_kwh_bounds (s : Z) (d : Z) (x : Q) :
  (8 <= s <= 25)%Z -> 0 <= x -> x < 1 ->
  kwh (entry (inject_Z s) d x)
  = PyFloat.round (inject_Z s * (12 # 10) + (-5 + (5 - -5) * x)) 2
  /\ inject_Z s * (12 # 10) - 5 <= kwh (entry (inject_Z s) d x)
  /\ kwh (entry (inject_Z s) d x) <= inject_Z s * (12 # 10) + 5
  /\ 46 # 10 <= kwh (entry (inject_Z s) d x).
Proof.
  intros Hs H0 H1. unfold entry. cbn [kwh].
  set (y := inject_Z s * (12 # 10) + (-5 + (5 - -5) * x)).
  assert (S8 : inject_Z 8 <= inject_Z s) by (rewrite <- Zle_Qle; lia).
  assert (S25 : inject_Z s <= inject_Z 25) by (rewrite <- Zle_Qle; lia).
  assert (E1 : (120 * s - 500 # PyFloat.scale 2) == inject_Z s * (12 # 10) - 5).
  { change (PyFloat.scale 2) with 100%positive.
    unfold Qeq, Qminus, Qplus, Qmult, Qopp, inject_Z. cbn [Qnum Qden]. lia. }
  assert (E2 : (120 * s + 500 # PyFloat.scale 2) == inject_Z s * (12 # 10) + 5).
  { change (PyFloat.scale 2) with 100%positive.
    unfold Qeq, Qminus, Qplus, Qmult, Qopp, inject_Z. cbn [Qnum Qden]. lia. }
  assert (L : inject_Z s * (12 # 10) - 5 <= PyFloat.round y 2).
  { rewrite <- E1. apply round_lower. rewrite E1. unfold y. nra. }
  assert (U : PyFloat.round y 2 <= inject_Z s * (12 # 10) + 5).
  { rewrite <- E2. apply round_upper. rewrite E2. unfold y. nra. }
  assert (P : 46 # 10 <= PyFloat.round y 2).
  { change (inject_Z 8) with 8 in S8. lra. }
  destruct (max_cases 0 (PyFloat.round y 2)) as [[_ E]|[G _]]; [|lra].
  rewrite E. repeat split; assumption.
Qed.

Lemma fold_plus_bounds (a b : Q) (xs : list Q) :
  Forall (fun q => a <= q /\ q <= b) xs ->
  forall acc,
    acc + inject_Z (Z.of_nat (List.length xs)) * a <= fold_left Qplus xs acc
    /\ fold_left Qplus xs acc <= acc + inject_Z (Z.of_nat (List.length xs)) * b.
Proof.
  induction 1 as [|q xs [La Ub] _ IH]; intros acc.
  - cbn [fold_left List.length]. change (inject_Z (Z.of_nat 0)) with 0.
    split; lra.
  - cbn [fold_left List.length]. destruct (IH (acc + q)) as [L U].
    rewrite Nat2Z.inj_succ. unfold Z.succ. rewrite inject_Z_plus.
    change (inject_Z 1) with 1. split; nra.
Qed.

(** For a stored setpoint [s] within 8..25, every daily value of a successful
    [get_consumption] lies within 5 kWh of [1.2 * s]; it is at least 4.6, so
    the floor at zero never applies and the value is the rounded sum itself. *)
Theorem consumption_kwh_range
  (v : value) (st st' : state) (r : consumption_reply) (e : day_entry)
  (Hok : setpoint_ok st = true) (Hg : PyRandom.well_formed (gen st))
  (H : get_consumption v st = (Ret r, st')) (He : In e (daily_consumption r)) :
  exists s : Z,
    setpoint st = PyInt s
    /\ inject_Z s * (12 # 10) - 5 <= kwh e
    /\ kwh e <= inject_Z s * (12 # 10) + 5
    /\ 46 # 10 <= kwh e /\ kwh e <= 35
    /\ exists j, kwh e = PyFloat.round (inject_Z s * (12 # 10)
                                        + (-5 + (5 - -5) * PyRandom.draw (gen st) j)) 2.
Proof.
  destruct (setpoint_ok_number st Hok) as (s & Es & Hs & En).
  destruct (get_consumption_inv v st st' r H) as (d & sp & _ & _ & Esp & D & _).
  rewrite En in Esp. inversion Esp; subst sp; clear Esp.
  rewrite D in He. apply in_map_iff in He. destruct He as (j & <- & _).
  destruct (entry_kwh_bounds s (1 + Z.of_nat j) (PyRandom.draw (gen st) j) Hs)
    as (E & L & U & P); try apply Hg.
  exists s. split; [exact Es|]. split; [exact L|]. split; [exact U|].
  split; [exact P|]. split; [|exists j; exact E].
  assert (S25 : inject_Z s <= inject_Z 25) by (rewrite <- Zle_Qle; lia).
  change (inject_Z 25) with 25 in S25. lra.
Qed.

Lemma consumption_kwh_range_witness :
  exists r st' e,
    get_consumption (PyInt 1) (initial (PyRandom.constant (1 # 2))) = (Ret r, st')
    /\ In e (daily_consumption r)
    /\ 46 # 10 <= kwh e /\ kwh e <= 35.
Proof.
  eexists. eexists. eexists. split; [reflexivity|]. split; [left; reflexivity|].
  destruct (consumption_kwh_range
              (PyInt 1) (initial (PyRandom.constant (1 # 2))) _ _ _
              eq_refl (constant_well_formed (1 # 2) ltac:(lra) ltac:(lra))
              eq_refl (or_introl eq_refl))
    as (s & _ & _ & _ & P & Q35 & _).
  split; [exact P | exact Q35].
Defined.

(** For a stored setpoint [s] within 8..25, the total of a successful
    [get_consumption(d)] lies between [d * (1.2 s - 5)] and [d * (1.2 s + 5)],
    and the average per day within 5 kWh of [1.2 * s]. *)
Theorem consumption_totals_range
  (v : value) (st st' : state) (r : consumption_reply)
  (Hok : setpoint_ok st = true) (Hg : PyRandom.well_formed (gen st))
  (H : get_consumption v st = (Ret r, st')) :
  exists s d : Z,
    setpoint st = PyInt s /\ as_int v = Some d
    /\ inject_Z d * (inject_Z s * (12 # 10) - 5) <= total_kwh r
    /\ total_kwh r <= inject_Z d * (inject_Z s * (12 # 10) + 5)
    /\ inject_Z s * (12 # 10) - 5 <= average_kwh_per_day r
    /\ average_kwh_per_day r <= inject_Z s * (12 # 10) + 5.
Proof.
  destruct (setpoint_ok_number st Hok) as (s & Es & Hs & En).
  destruct (get_consumption_inv v st st' r H)
    as (d & sp & Ev & Hd & Esp & D & _ & T & A & _).
  rewrite En in Esp. inversion Esp; subst sp; clear Esp.
  exists s, d. split; [exact Es|]. split; [exact Ev|].
  set (a := inject_Z s * (12 # 10) - 5). set (b := inject_Z s * (12 # 10) + 5).
  set (total := PyFloat.sum (map kwh (daily_consumption r))) in *.
  assert (B : Forall (fun q => a <= q /\ q <= b) (map kwh (daily_consumption r))).
  { apply Forall_forall. intros q Hq. apply in_map_iff in Hq.
    destruct Hq as (e & <- & He). rewrite D in He.
    apply in_map_iff in He. destruct He as (j & <- & _).
    destruct (entry_kwh_bounds s (1 + Z.of_nat j) (PyRandom.draw (gen st) j) Hs)
      as (_ & L & U & _); try apply Hg.
    split; assumption. }
  assert (N : Z.of_nat (List.length (map kwh (daily_consumption r))) = d).
  { rewrite length_map, D, length_map, length_seq. lia. }
  destruct (fold_plus_bounds a b _ B 0) as [L U]. fold (PyFloat.sum (map kwh (daily_consumption r))) in L, U.
  fold total in L, U. rewrite N in L, U.
  assert (Dec : PyFloat.decimal 2 total).
  { apply sum_decimal. apply Forall_forall. intros q Hq.
    apply in_map_iff in Hq. destruct Hq as (e & <- & He). rewrite D in He.
    apply in_map_iff in He. destruct He as (j & <- & _). unfold entry. cbn [kwh].
    apply decimal_max; [apply decimal_zero | apply round_decimal]. }
  pose proof (round_of_decimal _ _ Dec) as R. rewrite <- T in R.
  assert (Dpos : 0 < inject_Z d)
    by (change 0 with (inject_Z 0); rewrite <- Zlt_Qlt; lia).
  assert (E1 : (120 * s - 500 # PyFloat.scale 2) == a).
  { change (PyFloat.scale 2) with 100%positive. unfold a.
    unfold Qeq, Qminus, Qplus, Qmult, Qopp, inject_Z. cbn [Qnum Qden]. lia. }
  assert (E2 : (120 * s + 500 # PyFloat.scale 2) == b).
  { change (PyFloat.scale 2) with 100%positive. unfold b.
    unfold Qeq, Qminus, Qplus, Qmult, Qopp, inject_Z. cbn [Qnum Qden]. lia. }
  split; [lra|]. split; [lra|]. rewrite A. split.
  - rewrite <- E1. apply round_lower. rewrite E1.
    apply Qle_shift_div_l; [exact Dpos | lra].
  - rewrite <- E2. apply round_upper. rewrite E2.
    apply Qle_shift_div_r; [exact Dpos | lra].
Qed.

Lemma consumption_totals_range_witness :
  exists r st',
    get_consumption (PyInt 2) (initial (PyRandom.constant (1 # 2))) = (Ret r, st')
    /\ 2 * (20 * (12 # 10) - 5) <= total_kwh r
    /\ total_kwh r <= 2 * (20 * (12 # 10) + 5).
Proof.
  eexists. eexists. split; [reflexivity|].
  destruct (consumption_totals_range
              (PyInt 2) (initial (PyRandom.constant (1 # 2))) _ _
              eq_refl (constant_well_formed (1 # 2) ltac:(lra) ltac:(lra)) eq_refl)
    as (s & d & Es & Ed & L & U & _).
  inversion Es; inversion Ed; subst. split; [exact L | exact U].
Defined.

End HeaterSessions.

Section HeaterComposition.
Import Py Heater.

Lemma modify_setpoint_state (v : value) (st : state) :
  snd (modify_setpoint v st)
  = if accepts v then {| setpoint := v; gen := gen st |} else st.
Proof.
  unfold modify_setpoint, accepts. destruct (as_int v) as [t|]; [|reflexivity].
  destruct ((8 <=? t) && (t <=? 25)); reflexivity.
Qed.

(** The setpoint a session leaves stored is the argument of its last accepted
    [modify_setpoint], or the setpoint from before the session when no
    [modify_setpoint] of it was accepted; rejected calls and the other two
    tools play no part. *)
Theorem run_last_accepted (cs : list call) (st : state) :
  setpoint (run cs st) = last_accepted cs (setpoint st).
Proof.
  revert st. induction cs as [|c cs IH]; intros st; [reflexivity|].
  unfold run in *. cbn [fold_left last_accepted]. rewrite IH.
  destruct c as [|v|v]; cbn [handle].
  - reflexivity.
  - rewrite modify_setpoint_state. destruct (accepts v); reflexivity.
  - rewrite get_consumption_setpoint. reflexivity.
Qed.

(** Two [modify_setpoint] calls in a row: an accepted second call overwrites
    whatever the first did, a rejected second call leaves the first one's
    effect, and the [previous_setpoint] a second call reports is the value
    the first call left stored. *)
Theorem modify_setpoint_overwrites (v1 v2 : value) (st : state) :
  snd (modify_setpoint v2 (snd (modify_setpoint v1 st)))
  = (if accepts v2 then snd (modify_setpoint v2 st) else snd (modify_setpoint v1 st))
  /\ (forall r, fst (modify_setpoint v2 (snd (modify_setpoint v1 st))) = Ret r ->
        previous_setpoint r = (if accepts v1 then v1 else setpoint st)
        /\ new_setpoint r = v2).
Proof.
  split.
  - rewrite !modify_setpoint_state. destruct (accepts v2), (accepts v1); reflexivity.
  - intros r H.
    destruct (modify_setpoint_cases v2 (snd (modify_setpoint v1 st)))
      as [(t & _ & _ & M)|(_ & msg & M)]; rewrite M in H; [|discriminate].
    inversion H; subst; clear H. cbn [previous_setpoint new_setpoint].
    rewrite modify_setpoint_state. destruct (accepts v1); split; reflexivity.
Qed.

Lemma handle_generator (c : call) (st : state) :
  setpoint_ok st = true ->
  gen (handle c st) = PyRandom.advance (gen st) (days_served c).
Proof.
  intros Hok. destruct c as [|v|v]; cbn [handle days_served].
  - rewrite advance_zero. reflexivity.
  - rewrite modify_setpoint_state, advance_zero. destruct (accepts v); reflexivity.
  - destruct (setpoint_ok_number st Hok) as (s & _ & _ & En).
    destruct (as_int v) as [n|] eqn:Ev.
    + destruct ((n <? 1) || (n >? 365)) eqn:Er.
      * unfold get_consumption. rewrite Ev, Er, advance_zero. reflexivity.
      * rewrite (get_consumption_ok v n _ st Ev ltac:(lia) En). reflexivity.
    + unfold get_consumption. rewrite Ev, advance_zero. reflexivity.
Qed.

(** Over a session that starts from a valid setpoint, the random generator
    advances by exactly one draw per day of every accepted [get_consumption]
    call: rejected calls, [get_setpoint] and [modify_setpoint] draw nothing. *)
Theorem run_generator (cs : list call) (st : state)
  (Hok : setpoint_ok st = true) :
  gen (run cs st) = PyRandom.advance (gen st) (draws_used cs).
Proof.
  revert st Hok. induction cs as [|c cs IH]; intros st Hok.
  - cbn. rewrite advance_zero. reflexivity.
  - unfold run in *. cbn [fold_left draws_used fold_right].
    rewrite (IH _ (handle_setpoint_ok c st Hok)), (handle_generator c st Hok).
    apply advance_advance.
Qed.

Lemma run_generator_witness :
  setpoint_ok (initial (PyRandom.constant (1 # 2))) = true
  /\ PyRandom.consumed
       (gen (run [GetConsumption (PyInt 3); GetSetpoint; GetConsumption (PyInt 0);
                  ModifySetpoint (PyInt 9); GetConsumption (PyInt 4)]
                 (initial (PyRandom.constant (1 # 2))))) = 7%nat.
Proof.
  split; [reflexivity|].
  rewrite (run_generator _ (initial (PyRandom.constant (1 # 2))) eq_refl).
  reflexivity.
Defined.

(** Two successful [get_consumption] calls in a row never share a draw: the
    entries of the second are computed from the draws that follow the [d1]
    draws the first one used. *)
Theorem consecutive_consumptions_fresh_draws
  (v1 v2 : value) (st st1 st2 : state) (r1 r2 : consumption_reply)
  (H1 : get_consumption v1 st = (Ret r1, st1))
  (H2 : get_consumption v2 st1 = (Ret r2, st2)) :
  exists (d1 d2 : Z) (sp : Q),
    as_int v1 = Some d1 /\ as_int v2 = Some d2
    /\ daily_consumption r1
       = map (fun j => entry sp (1 + Z.of_nat j) (PyRandom.draw (gen st) j))
             (seq 0 (Z.to_nat d1))
    /\ daily_consumption r2
       = map (fun j => entry sp (1 + Z.of_nat j)
                         (PyRandom.draw (gen st) (Z.to_nat d1 + j)))
             (seq 0 (Z.to_nat d2)).
Proof.
  destruct (get_consumption_inv v1 st st1 r1 H1)
    as (d1 & sp & E1 & _ & N1 & D1 & _ & _ & _ & S1).
  destruct (get_consumption_inv v2 st1 st2 r2 H2)
    as (d2 & sp' & E2 & _ & N2 & D2 & _).
  subst st1. cbn [setpoint gen] in N2, D2.
  rewrite N1 in N2. inversion N2; subst sp'.
  exists d1, d2, sp. split; [exact E1|]. split; [exact E2|]. split; [exact D1|].
  rewrite D2. apply map_ext. intros j. rewrite draw_advance. reflexivity.
Qed.

Lemma consecutive_consumptions_fresh_draws_witness :
  exists r1 st1 r2 st2,
    get_consumption (PyInt 2) (initial (PyRandom.constant (1 # 2))) = (Ret r1, st1)
    /\ get_consumption (PyInt 3) st1 = (Ret r2, st2)
    /\ List.length (daily_consumption r2) = 3%nat.
Proof.
  do 4 eexists. split; [reflexivity|]. split; [reflexivity|].
  destruct (consecutive_consumptions_fresh_draws
              (PyInt 2) (PyInt 3) (initial (PyRandom.constant (1 # 2)))
              _ _ _ _ eq_refl eq_refl)
    as (d1 & d2 & sp & _ & E2 & _ & D2).
  inversion E2; subst. rewrite D2, length_map, length_seq. reflexivity.
Defined.

(** [bool] arguments go through [isinstance(_, int)]: [modify_setpoint]
    rejects both of them on the range check, [get_consumption(False)] is
    rejected, and [get_consumption(True)] is served as one day, its reply
    being that of [get_consumption(1)] with [True] in the [days] field. *)
Theorem bool_arguments (b : bool) (st : state) :
  (exists msg, modify_setpoint (PyBool b) st = (Raise (ValueError msg), st))
  /\ (exists msg, get_consumption (PyBool false) st = (Raise (ValueError msg), st))
  /\ snd (get_consumption (PyBool true) st) = snd (get_consumption (PyInt 1) st)
  /\ match fst (get_consumption (PyBool true) st),
           fst (get_consumption (PyInt 1) st) with
     | Ret r, Ret r1 =>
         days r = PyBool true /\ days r1 = PyInt 1
         /\ daily_consumption r = daily_consumption r1
         /\ total_kwh r = total_kwh r1
         /\ average_kwh_per_day r = average_kwh_per_day r1
     | Raise e, Raise e1 => e = e1
     | _, _ => False
     end.
Proof.
  split; [|split; [|split]].
  - destruct b; eexists; reflexivity.
  - eexists; reflexivity.
  - unfold get_consumption. cbn [as_int].
    simpl ((1 <? 1) || (1 >? 365)).
    destruct (as_number (setpoint st)); [|reflexivity].
    destruct (fold_left _ _ _). reflexivity.
  - unfold get_consumption. cbn [as_int].
    simpl ((1 <? 1) || (1 >? 365)).
    destruct (as_number (setpoint st)); [|reflexivity].
    destruct (fold_left _ _ _). cbn [fst days daily_consumption total_kwh
                                      average_kwh_per_day].
    repeat split.
Qed.

End HeaterComposition.

(* ------------------------------------------------------------------------- *)
(** * Further properties of the weather service *)

Section WeatherLookups.
Import Py Weather.
Open Scope Q_scope.

(** The status of a weather lookup is 200, 401 or 500; it is 200 exactly when
    a key is configured and the supplied key is that key, and 500 exactly
    when no key is configured, so the configuration error takes precedence
    over the mismatch; a request with an empty key is never answered 200. *)
Theorem weather_status_characterised
  (env : list (string * string)) (key : string) (request : WeatherRequest)
  (g : PyRandom.rng) :
  let status := status_of (fst (post_weather env key request g)) in
  (status = 200 \/ status = 401 \/ status = 500)%Z
  /\ (status = 200%Z <-> EXPECTED_API_KEY env <> "" /\ key = EXPECTED_API_KEY env)
  /\ (status = 500%Z <-> EXPECTED_API_KEY env = "")
  /\ (key = "" -> status <> 200%Z).
Proof.
  unfold post_weather.
  destruct (verify_api_key_cases (EXPECTED_API_KEY env) key)
    as [(E & V)|[(N & D & V)|(N & D & V)]]; rewrite V;
    try rewrite get_weather_reply; cbn [fst status_of];
    intuition (try congruence; try lia).
Qed.

(** A rejected lookup draws no random number; an accepted one draws exactly
    one. *)
Theorem weather_generator
  (env : list (string * string)) (key : string) (request : WeatherRequest)
  (g : PyRandom.rng) :
  snd (post_weather env key request g)
  = if (status_of (fst (post_weather env key request g)) =? 200)%Z
    then PyRandom.advance g 1 else g.
Proof.
  unfold post_weather.
  destruct (verify_api_key_cases (EXPECTED_API_KEY env) key)
    as [(E & V)|[(N & D & V)|(N & D & V)]]; rewrite V; try reflexivity.
  rewrite get_weather_reply. cbn. unfold PyRandom.advance. f_equal. lia.
Qed.

(** The temperature of a successful lookup is a whole number of tenths of a
    degree: one of the 61 values -10.0, -9.9, ..., -4.0. *)
Theorem weather_temperature_tenths
  (env : list (string * string)) (key : string) (request : WeatherRequest)
  (g g' : PyRandom.rng) (code : Z) (body : WeatherResponse)
  (Hg : PyRandom.well_formed g)
  (H : post_weather env key request g = (Response code body, g')) :
  exists k : Z, (40 <= k <= 100)%Z /\ temperature body = (- k # 10).
Proof.
  unfold post_weather in H.
  destruct (verify_api_key (EXPECTED_API_KEY env) key) as [k|[]];
    try discriminate.
  rewrite get_weather_reply in H. inversion H; subst; clear H.
  cbn [temperature].
  destruct (weather_temperature_range g Hg) as (L & U & _).
  set (u := -10 + (-4 - -10) * PyRandom.draw g 0) in *.
  exists (- PyFloat.round_half_even (u * inject_Z 10))%Z.
  assert (Lo : (-100 <= PyFloat.round_half_even (u * inject_Z 10))%Z).
  { apply round_half_even_lower. change (inject_Z (-100)) with (-100).
    change (inject_Z 10) with 10. lra. }
  assert (Hi : (PyFloat.round_half_even (u * inject_Z 10) <= -40)%Z).
  { apply round_half_even_upper. change (inject_Z (-40)) with (-40).
    change (inject_Z 10) with 10. lra. }
  split; [lia|]. rewrite Z.opp_involutive. reflexivity.
Qed.

Lemma weather_temperature_tenths_witness :
  exists body g' k,
    post_weather [("API_KEY", "secret")] "secret" {| req_location := "Oslo" |}
                 (PyRandom.constant (1 # 2))
    = (Response 200 body, g')
    /\ (40 <= k <= 100)%Z /\ temperature body = (- k # 10).
Proof.
  destruct (weather_temperature_tenths
              [("API_KEY", "secret")] "secret" {| req_location := "Oslo" |}
              (PyRandom.constant (1 # 2)) _ _ _
              (constant_well_formed (1 # 2) ltac:(lra) ltac:(lra)) eq_refl)
    as (k & K & T).
  do 3 eexists. split; [reflexivity|]. split; [exact K | exact T].
Defined.

End WeatherLookups.

(* ------------------------------------------------------------------------- *)
(** * Further properties of the telemetry simulator *)

Section TelemetryPasses.
Import Py Telemetry.

Variable stream_name : string.

Lemma tick_zero (c : clock) : tick c 0 = c.
Proof. destruct c. unfold tick. cbn. f_equal. lia. Qed.

Lemma tick_tick (c : clock) (k k' : nat) : tick (tick c k) k' = tick c (k + k').
Proof. unfold tick. cbn. f_equal. lia. Qed.

Lemma readings_from_shift (g : PyRandom.rng) (c : clock) (k : nat) :
  forall (rooms : list (string * room_config)) (i : nat),
    readings_from (PyRandom.advance g (2 * k)) (tick c k) i rooms
    = readings_from g c (k + i) rooms.
Proof.
  induction rooms as [|item rooms IH]; intros i; [reflexivity|].
  cbn [readings_from]. rewrite IH. f_equal; [|f_equal; lia].
  unfold reading_at. rewrite !draw_advance. cbn [tick instants reads].
  replace (2 * k + 2 * i)%nat with (2 * (k + i))%nat by lia.
  replace (2 * k + (2 * i + 1))%nat with (2 * (k + i) + 1)%nat by lia.
  replace (reads c + k + i)%nat with (reads c + (k + i))%nat by lia.
  reflexivity.
Qed.

Lemma readings_from_app (g : PyRandom.rng) (c : clock) :
  forall (l1 l2 : list (string * room_config)) (i : nat),
    readings_from g c i (l1 ++ l2)
    = (readings_from g c i l1 ++ readings_from g c (i + List.length l1) l2)%list.
Proof.
  induction l1 as [|item l1 IH]; intros l2 i.
  - cbn. rewrite Nat.add_0_r. reflexivity.
  - cbn [app readings_from List.length]. rewrite IH. do 3 f_equal. lia.
Qed.

Lemma readings_from_nth (g : PyRandom.rng) (c : clock) :
  forall (rooms : list (string * room_config)) (k i : nat) (r : reading),
    nth_error (readings_from g c k rooms) i = Some r ->
    exists item, nth_error rooms i = Some item /\ r = reading_at g c (k + i) item.
Proof.
  induction rooms as [|item rooms IH]; intros k i r H.
  - destruct i; discriminate.
  - destruct i as [|i]; cbn in H.
    + inversion H. exists item. rewrite Nat.add_0_r. split; reflexivity.
    + destruct (IH _ _ _ H) as (it & N & E). exists it. split; [exact N|].
      rewrite E. f_equal. lia.
Qed.

Lemma readings_from_length (g : PyRandom.rng) (c : clock) :
  forall (rooms : list (string * room_config)) (k : nat),
    List.length (readings_from g c k rooms) = List.length rooms.
Proof.
  induction rooms as [|item rooms IH]; intros k; [reflexivity|].
  cbn [readings_from List.length]. rewrite IH. reflexivity.
Qed.

(** What one room adds to the trace: the send, and after it only prints. *)
Lemma process_room_trace (item : string * room_config) (w : world) :
  exists w' prints,
    process_room stream_name item w = (Ret tt, w')
    /\ gen w' = PyRandom.advance (gen w) 2
    /\ now w' = tick (now w) 1
    /\ firehose w' = firehose w
    /\ calls w' = S (calls w)
    /\ trace w'
       = (trace w ++ PutRecord stream_name (reading_at (gen w) (now w) 0 item)
                  :: prints)%list
    /\ forallb is_print prints = true
    /\ outcomes prints
       = [(fst item,
           acknowledged (firehose w (calls w) stream_name
                                  (reading_at (gen w) (now w) 0 item)))]
    /\ (List.length prints
        = if is_ret (firehose w (calls w) stream_name
                              (reading_at (gen w) (now w) 0 item))
             && match firehose w (calls w) stream_name
                              (reading_at (gen w) (now w) 0 item) with
                | Ret response => is_ret (getitem response "RecordId")
                | Raise _ => false
                end
          then 1%nat else 2%nat).
Proof.
  destruct item as [name config]. unfold process_room, bind.
  rewrite generate_telemetry_reading.
  set (r := reading_at (gen w) (now w) 0 (name, config)).
  unfold send_to_firehose, try_except, bind, put_record, lift, ret, print, emit,
    acknowledged.
  cbn [gen now firehose calls trace fst].
  assert (N : {| instants := instants (now w); reads := S (reads (now w)) |}
              = tick (now w) 1) by (unfold tick; f_equal; lia).
  destruct (firehose w (calls w) stream_name r) as [response|e].
  - destruct (getitem response "RecordId") as [rid|e].
    + cbn [acknowledged is_ret andb].
      destruct (truthy_str rid) eqn:T; do 2 eexists;
        (split; [reflexivity|]); cbn [gen now firehose calls trace];
        rewrite <- app_assoc; cbn [app];
        repeat split; try exact N.
    + cbn [gen now firehose calls trace acknowledged is_ret andb].
      do 2 eexists. split; [reflexivity|]. cbn [gen now firehose calls trace].
      rewrite <- !app_assoc. cbn [app].
      repeat split; try exact N.
  - cbn [gen now firehose calls trace acknowledged is_ret andb].
    do 2 eexists. split; [reflexivity|]. cbn [gen now firehose calls trace].
    rewrite <- !app_assoc. cbn [app].
    repeat split; try exact N.
Qed.

Lemma prints_silent (prints : list event) :
  forallb is_print prints = true ->
  puts prints = [] /\ sleeps prints = [] /\ streams prints = [].
Proof.
  induction prints as [|e prints IH]; intros H; [repeat split|].
  cbn in H. apply andb_prop in H. destruct H as [He Hp].
  destruct (IH Hp) as (P & S & T). destruct e; try discriminate.
  unfold puts, sleeps, streams in *. cbn. auto.
Qed.

Lemma sleeps_app (tr tr' : list event) :
  sleeps (tr ++ tr') = (sleeps tr ++ sleeps tr')%list.
Proof. apply flat_map_app. Qed.

Lemma streams_app (tr tr' : list event) :
  streams (tr ++ tr') = (streams tr ++ streams tr')%list.
Proof. apply flat_map_app. Qed.

Lemma outcomes_app (tr tr' : list event) :
  outcomes (tr ++ tr') = (outcomes tr ++ outcomes tr')%list.
Proof. apply flat_map_app. Qed.

(** The loop over any list of rooms, with everything it leaves behind. *)
Lemma rooms_loop_trace :
  forall (rooms : list (string * room_config)) (w : world),
  exists w',
    for_each rooms (process_room stream_name) w = (Ret tt, w')
    /\ gen w' = PyRandom.advance (gen w) (2 * List.length rooms)
    /\ now w' = tick (now w) (List.length rooms)
    /\ firehose w' = firehose w
    /\ calls w' = (calls w + List.length rooms)%nat
    /\ puts (trace w')
       = (puts (trace w) ++ readings_from (gen w) (now w) 0 rooms)%list
    /\ sleeps (trace w') = sleeps (trace w)
    /\ streams (trace w')
       = (streams (trace w) ++ repeat stream_name (List.length rooms))%list
    /\ map fst (outcomes (trace w'))
       = (map fst (outcomes (trace w)) ++ map fst rooms)%list.
Proof.
  induction rooms as [|item rooms IH]; intros w.
  - exists w. cbn [for_each List.length readings_from repeat map]. unfold ret.
    rewrite advance_zero, tick_zero, !app_nil_r, Nat.add_0_r. repeat split.
  - destruct (process_room_trace item w)
      as (w1 & prints & E1 & G1 & N1 & F1 & C1 & T1 & P1 & O1 & _).
    destruct (prints_silent prints P1) as (Pp & Ps & Pt).
    destruct (IH w1) as (w2 & E2 & G2 & N2 & F2 & C2 & P2 & S2 & T2 & O2).
    exists w2. cbn [for_each]. unfold bind at 1. rewrite E1, E2.
    split; [reflexivity|]. cbn [List.length readings_from repeat map].
    rewrite G2, G1, advance_advance, N2, N1, tick_tick, F2, F1, C2, C1.
    rewrite P2, S2, T2, O2, T1, G1, N1.
    replace (PyRandom.advance (gen w) 2) with (PyRandom.advance (gen w) (2 * 1))
      by reflexivity.
    rewrite readings_from_shift.
    rewrite puts_app, sleeps_app, streams_app, outcomes_app.
    change (PutRecord stream_name (reading_at (gen w) (now w) 0 item) :: prints)
      with ([PutRecord stream_name (reading_at (gen w) (now w) 0 item)] ++ prints)%list.
    rewrite puts_app, sleeps_app, streams_app, outcomes_app, Pp, Ps, Pt, O1.
    cbn [puts sleeps streams outcomes flat_map app map fst].
    rewrite <- !app_assoc, !map_app. cbn [app map fst Nat.add].
    split; [f_equal; lia|]. split; [f_equal; lia|]. split; [reflexivity|].
    split; [lia|]. split; [reflexivity|]. split; [apply app_nil_r|].
    split; [reflexivity|]. rewrite <- app_assoc. reflexivity.
Qed.

(** [n] passes of the loop, with everything they leave behind. *)
Lemma passes_trace :
  forall (n : nat) (w : world),
  exists w',
    iterations stream_name n w = (Ret tt, w')
    /\ gen w' = PyRandom.advance (gen w) (6 * n)
    /\ now w' = tick (now w) (3 * n)
    /\ firehose w' = firehose w
    /\ calls w' = (calls w + 3 * n)%nat
    /\ puts (trace w')
       = (puts (trace w) ++ readings_from (gen w) (now w) 0 (rooms_of_passes n))%list
    /\ sleeps (trace w') = (sleeps (trace w) ++ repeat 30 n)%list
    /\ streams (trace w')
       = (streams (trace w) ++ repeat stream_name (3 * n))%list.
Proof.
  induction n as [|n IH]; intros w.
  - exists w. cbn [iterations repeat]. unfold ret, rooms_of_passes.
    cbn [repeat List.concat readings_from Nat.mul].
    rewrite advance_zero, tick_zero, !app_nil_r, Nat.add_0_r. repeat split.
  - destruct (rooms_loop_trace ROOMS w)
      as (w1 & E1 & G1 & N1 & F1 & C1 & P1 & S1 & T1 & _).
    set (w1' := {| gen := gen w1; now := now w1; firehose := firehose w1;
                   calls := calls w1; trace := (trace w1 ++ [Sleep 30])%list |}).
    destruct (IH w1') as (w2 & E2 & G2 & N2 & F2 & C2 & P2 & S2 & T2).
    exists w2. cbn [iterations]. unfold bind at 1, iteration, bind at 1.
    rewrite E1. unfold sleep, emit. fold w1'. rewrite E2.
    split; [reflexivity|]. subst w1'. cbn [gen now firehose calls trace] in *.
    rewrite puts_app, sleeps_app, streams_app in *.
    cbn [puts sleeps streams flat_map app] in *. rewrite app_nil_r in *.
    rewrite G2, G1, advance_advance, N2, N1, tick_tick, F2, F1, C2, C1.
    rewrite P2, S2, T2, P1, S1, T1, G1, N1.
    change (List.length ROOMS) with 3%nat.
    rewrite readings_from_shift.
    unfold rooms_of_passes. cbn [repeat List.concat].
    rewrite readings_from_app, <- !app_assoc.
    change (List.length ROOMS) with 3%nat.
    replace (3 * S n)%nat with (3 + 3 * n)%nat by lia.
    rewrite repeat_app. cbn [Nat.add].
    split; [f_equal; lia|]. split; [f_equal; lia|]. split; [reflexivity|].
    split; [lia|]. repeat split.
Qed.


End TelemetryPasses.

Section TelemetryProperties.
Import Py Telemetry.
Open Scope Q_scope.

Lemma rooms_of_passes_length (n : nat) :
  List.length (rooms_of_passes n) = (3 * n)%nat.
Proof.
  unfold rooms_of_passes. induction n as [|n IH]; [reflexivity|].
  cbn [repeat List.concat]. rewrite length_app, IH.
  change (List.length ROOMS) with 3%nat. lia.
Qed.

Lemma rooms_of_passes_in (n : nat) (item : string * room_config) :
  In item (rooms_of_passes n) -> In item ROOMS.
Proof.
  unfold rooms_of_passes. intros H. apply in_concat in H.
  destruct H as (l & Hl & Hi). apply repeat_spec in Hl. subst l. exact Hi.
Qed.

(** The loop reports a room as delivered exactly when [put_record] returned
    a response with a non-empty [RecordId]; in particular a response whose
    [RecordId] is the empty string is reported as a failure, with no error
    line, although the send did not raise. *)
Theorem process_room_report
  (stream_name : string) (item : string * room_config) (w : world) :
  let r := reading_at (gen w) (now w) 0 item in
  exists w',
    process_room stream_name item w = (Ret tt, w')
    /\ outcomes (trace w')
       = (outcomes (trace w)
          ++ [(fst item, acknowledged (firehose w (calls w) stream_name r))])%list
    /\ (forall response,
          firehose w (calls w) stream_name r = Ret response ->
          getitem response "RecordId" = Ret "" ->
          trace w'
          = (trace w ++ [PutRecord stream_name r;
                         Print (FailedToSend (time_recorded r) (fst item))])%list).
Proof.
  destruct item as [name config]. intros r. unfold process_room, bind.
  rewrite generate_telemetry_reading. fold r.
  unfold send_to_firehose, try_except, bind, put_record, lift, ret, print, emit,
    acknowledged.
  cbn [gen now firehose calls trace fst].
  destruct (firehose w (calls w) stream_name r) as [response|e] eqn:F.
  - destruct (getitem response "RecordId") as [rid|e] eqn:G.
    + destruct (truthy_str rid) eqn:T; eexists;
        (split; [reflexivity|]); cbn [gen now firehose calls trace];
        rewrite <- app_assoc, outcomes_app; cbn [app];
        (split; [reflexivity|]);
        intros response' F' G'; inversion F'; subst response';
        rewrite G in G'; inversion G'; subst rid;
        [discriminate T | reflexivity].
    + eexists. split; [reflexivity|]. cbn [gen now firehose calls trace].
      rewrite <- !app_assoc, outcomes_app. cbn [app].
      split; [reflexivity|].
      intros response' F' G'. inversion F'; subst response'. congruence.
  - eexists. split; [reflexivity|]. cbn [gen now firehose calls trace].
    rewrite <- !app_assoc, outcomes_app. cbn [app].
    split; [reflexivity|]. intros response' F'. discriminate.
Qed.

(** The readings the simulator generates do not depend on how the sends go:
    two runs of [n] passes that start from the same random generator and the
    same clock hand the same [3 * n] readings to the ingestion service,
    whatever the service answers in either run and whatever stream each run
    is configured with. *)
Theorem readings_independent_of_deliveries
  (stream1 stream2 : string) (n : nat) (w1 w2 : world)
  (Hg : gen w1 = gen w2) (Hc : now w1 = now w2) :
  exists rs,
    puts (trace (snd (iterations stream1 n w1))) = (puts (trace w1) ++ rs)%list
    /\ puts (trace (snd (iterations stream2 n w2))) = (puts (trace w2) ++ rs)%list
    /\ List.length rs = (3 * n)%nat.
Proof.
  destruct (passes_trace stream1 n w1) as (w1' & E1 & _ & _ & _ & _ & P1 & _).
  destruct (passes_trace stream2 n w2) as (w2' & E2 & _ & _ & _ & _ & P2 & _).
  exists (readings_from (gen w1) (now w1) 0 (rooms_of_passes n)).
  rewrite E1, E2. cbn [snd]. split; [exact P1|].
  split; [rewrite Hg, Hc; exact P2|].
  rewrite readings_from_length. apply rooms_of_passes_length.
Qed.

Lemma readings_independent_of_deliveries_witness :
  exists rs,
    puts (trace (snd (iterations "house" 2
                        (world_of (fun _ _ _ => Raise (ClientError "down"))))))
    = rs
    /\ puts (trace (snd (iterations "other" 2
                           (world_of (fun _ _ _ => Ret [("RecordId", "shard-0")])))))
       = rs
    /\ List.length rs = 6%nat.
Proof.
  apply (readings_independent_of_deliveries
           "house" "other" 2
           (world_of (fun _ _ _ => Raise (ClientError "down")))
           (world_of (fun _ _ _ => Ret [("RecordId", "shard-0")]))
           eq_refl eq_refl).
Defined.

(** Over [n] passes the simulator draws exactly [6 * n] random numbers and
    reads the clock exactly [3 * n] times; the [i]-th reading it sends carries
    the [i]-th clock reading as its timestamp and the name of the [i]-th room
    in the order of the passes. *)
Theorem passes_clock_and_draws (stream_name : string) (n : nat) (w : world) :
  exists w' rs,
    iterations stream_name n w = (Ret tt, w')
    /\ gen w' = PyRandom.advance (gen w) (6 * n)
    /\ now w' = tick (now w) (3 * n)
    /\ puts (trace w') = (puts (trace w) ++ rs)%list
    /\ forall i r,
         nth_error rs i = Some r ->
         time_recorded r = instants (now w) (reads (now w) + i)
         /\ exists item,
              nth_error (rooms_of_passes n) i = Some item /\ room r = fst item.
Proof.
  destruct (passes_trace stream_name n w) as (w' & E & G & N & _ & _ & P & _).
  exists w', (readings_from (gen w) (now w) 0 (rooms_of_passes n)).
  split; [exact E|]. split; [exact G|]. split; [exact N|]. split; [exact P|].
  intros i r H. apply readings_from_nth in H. destruct H as (item & Hi & ->).
  cbn [Nat.add]. split; [reflexivity|]. exists item. split; [exact Hi|reflexivity].
Qed.

(** Every pass ends with one pause of 30 seconds and there is no other pause;
    every record is sent to the configured delivery stream. *)
Theorem passes_pacing_and_addressing (stream_name : string) (n : nat) (w : world) :
  sleeps (trace (snd (iterations stream_name n w)))
  = (sleeps (trace w) ++ repeat 30%Z n)%list
  /\ streams (trace (snd (iterations stream_name n w)))
     = (streams (trace w) ++ repeat stream_name (3 * n))%list.
Proof.
  destruct (passes_trace stream_name n w) as (w' & E & _ & _ & _ & _ & _ & S & T).
  rewrite E. cbn [snd]. split; [exact S | exact T].
Qed.

Lemma round_tenths_within (x : Q) (lo hi : Z) :
  lo # 10 <= x -> x <= hi # 10 ->
  lo # 10 <= PyFloat.round x 1 /\ PyFloat.round x 1 <= hi # 10.
Proof.
  intros L U. pose proof (round_lower x 1 lo) as RL.
  pose proof (round_upper x 1 hi) as RU.
  change (PyFloat.scale 1) with 10%positive in RL, RU. auto.
Qed.

Lemma reading_at_range (g : PyRandom.rng) (c : clock) (i : nat)
  (item : string * room_config) :
  In item ROOMS -> PyRandom.well_formed g ->
  temp_base (snd item) - 2 <= temperature (reading_at g c i item)
  /\ temperature (reading_at g c i item) <= temp_base (snd item) + 2
  /\ inject_Z (humidity_base (snd item)) - 5 <= humidity (reading_at g c i item)
  /\ humidity (reading_at g c i item) <= inject_Z (humidity_base (snd item)) + 5.
Proof.
  intros Hin Hg.
  destruct (perturbation_range (-2) 2 (PyRandom.draw g (2 * i))) as [L1 U1];
    [lra | apply Hg |].
  destruct (perturbation_range (-5) 5 (PyRandom.draw g (2 * i + 1))) as [L2 U2];
    [lra | apply Hg |].
  specialize (U1 ltac:(lra)). specialize (U2 ltac:(lra)).
  unfold reading_at. cbn [temperature humidity].
  set (u := -2 + (2 - -2) * PyRandom.draw g (2 * i)) in *.
  set (v := -5 + (5 - -5) * PyRandom.draw g (2 * i + 1)) in *.
  destruct Hin as [<-|[<-|[<-|[]]]]; cbn [snd temp_base humidity_base].
  - destruct (round_tenths_within (22 + u) 200 240) as [A B]; try lra.
    change (inject_Z 50) with 50.
    destruct (round_tenths_within (50 + v) 450 550) as [C D]; try lra.
  - destruct (round_tenths_within ((215 # 10) + u) 195 235) as [A B]; try lra.
    change (inject_Z 48) with 48.
    destruct (round_tenths_within (48 + v) 430 530) as [C D]; try lra.
  - destruct (round_tenths_within (20 + u) 180 220) as [A B]; try lra.
    change (inject_Z 52) with 52.
    destruct (round_tenths_within (52 + v) 470 570) as [C D]; try lra.
Qed.

(** Every reading sent during [n] passes belongs to one of the three rooms,
    has a temperature within 2 degrees of that room's base temperature and a
    humidity within 5 points of its base humidity; so all temperatures lie
    within 18.0 .. 24.0 and all humidities within 43.0 .. 57.0. *)
Theorem passes_reading_ranges (stream_name : string) (n : nat) (w : world)
  (Hg : PyRandom.well_formed (gen w)) :
  exists rs,
    puts (trace (snd (iterations stream_name n w))) = (puts (trace w) ++ rs)%list
    /\ forall r, In r rs ->
         (exists config,
             In (room r, config) ROOMS
             /\ temp_base config - 2 <= temperature r
             /\ temperature r <= temp_base config + 2
             /\ inject_Z (humidity_base config) - 5 <= humidity r
             /\ humidity r <= inject_Z (humidity_base config) + 5)
         /\ 18 <= temperature r /\ temperature r <= 24
         /\ 43 <= humidity r /\ humidity r <= 57.
Proof.
  destruct (passes_trace stream_name n w) as (w' & E & _ & _ & _ & _ & P & _).
  exists (readings_from (gen w) (now w) 0 (rooms_of_passes n)).
  rewrite E. cbn [snd]. split; [exact P|].
  intros r Hr. apply In_nth_error in Hr. destruct Hr as [i Hi].
  apply readings_from_nth in Hi. destruct Hi as ([name config] & Hn & ->).
  apply nth_error_In, rooms_of_passes_in in Hn.
  destruct (reading_at_range (gen w) (now w) (0 + i) (name, config) Hn Hg)
    as (A & B & C & D).
  cbn [snd] in A, B, C, D.
  split.
  - exists config. cbn [room reading_at fst]. repeat split; assumption.
  - destruct Hn as [X|[X|[X|[]]]]; inversion X; subst;
      cbn [temp_base humidity_base] in A, B, C, D;
      change (inject_Z 50) with 50 in *; change (inject_Z 48) with 48 in *;
      change (inject_Z 52) with 52 in *; repeat split; lra.
Qed.

Lemma passes_reading_ranges_witness :
  exists rs,
    puts (trace (snd (iterations "house" 1
                        (world_of (fun _ _ _ => Raise (ClientError "down"))))))
    = rs
    /\ forall r, In r rs -> 18 <= temperature r /\ temperature r <= 24.
Proof.
  destruct (passes_reading_ranges
              "house" 1 (world_of (fun _ _ _ => Raise (ClientError "down")))
              (constant_well_formed (1 # 2) ltac:(lra) ltac:(lra)))
    as (rs & P & R).
  exists rs. split; [exact P|]. intros r Hr.
  destruct (R r Hr) as (_ & A & B & _). split; [exact A | exact B].
Defined.

End TelemetryProperties.

Section TelemetryStartup.
Import Py Telemetry.




End TelemetryStartup.

Section StartupRuns.
Import Py Telemetry.


End StartupRuns.
